(** * Profile editing and note creation routes: a shallow embedding

    The development follows the two route modules of the application:

    - the profile-edit route ([loader], [action], the [ProfileFormSchema]
      and the refinement passed to [superRefine]);
    - the new-note route (its [loader], here [notes_new_loader]).

    Handlers are written in a small monad [M] that threads the user table,
    records every call that leaves the handler (session check, form
    reading, ORM queries, password helpers) in a trace, and lets a handler
    stop by throwing, as [throw redirect(...)] does in the source. *)

From stdpp Require Import gmap strings list fin_maps.

Open Scope string_scope.
Open Scope list_scope.

(** ** The user table *)

Definition UserId := string.

(** A row of the [User] model, with the hash of its password relation. *)
Record User := mkUser {
  u_id : UserId;
  u_name : option string;
  u_username : string;
  u_email : string;
  u_image : option string;
  u_hash : string;
}.

Definition Db := list User.

(** The [where] argument of [prisma.user.findUnique]. *)
Inductive Where :=
| ById (id : UserId)
| ByUsername (username : string)
| ByEmail (email : string).

Definition matches (w : Where) (u : User) : bool :=
  match w with
  | ById id => bool_decide (u_id u = id)
  | ByUsername username => bool_decide (u_username u = username)
  | ByEmail email => bool_decide (u_email u = email)
  end.

Definition findUnique (w : Where) (db : Db) : option User :=
  List.find (matches w) db.

(** The [data] argument of [prisma.user.update]: a field left [undefined]
    ([None]) is not written. *)
Record UserUpdateInput := mkData {
  data_name : option string;
  data_username : string;
  data_email : string;
  data_password : option string;
}.

Definition apply_update (d : UserUpdateInput) (u : User) : User :=
  {| u_id := u_id u;
     u_name := match data_name d with Some n => Some n | None => u_name u end;
     u_username := data_username d;
     u_email := data_email d;
     u_image := u_image u;
     u_hash := match data_password d with Some h => h | None => u_hash u end |}.

(** Another row already holds the username or the email about to be
    written: the unique indexes refuse the write. *)
Definition conflicts (id : UserId) (d : UserUpdateInput) (u : User) : bool :=
  negb (bool_decide (u_id u = id))
  && (bool_decide (u_username u = data_username d)
      || bool_decide (u_email u = data_email d)).

(** The table once the row of [id] has been written. *)
Definition update_row (id : UserId) (d : UserUpdateInput) (db : Db) : Db :=
  (λ u, if bool_decide (u_id u = id) then apply_update d u else u) <$> db.

(** The table keeps its three unique indexes. *)
Definition db_unique (db : Db) : Prop :=
  NoDup (u_id <$> db) ∧ NoDup (u_username <$> db) ∧ NoDup (u_email <$> db).

(** ** Requests, form data, responses *)

(** What a form field holds once the form data has been read: text, an
    uploaded file, the values of a repeated field, or a nested fieldset. *)
#[local] Unset Elimination Schemes.
Inductive FieldValue :=
| FText (s : string)
| FFile (filename : string) (size : nat)
| FMany (vs : list FieldValue)
| FNested (fs : list (string * FieldValue)).
#[local] Set Elimination Schemes.

(** What makes the form library throw on a list intent: the text after
    ["list/"] is no JSON, the field it names holds a value that is no
    list, or it asks for an operation the library does not know. *)
Inductive ListFailure :=
| MalformedIntent
| NotAList
| UnknownOperation.

(** The form data of a request as the form library reads it: the intent
    of the submit button (['submit'] when the form names none; a form
    names at most one), the payload object built from the remaining
    fields (a list intent that went through already applied to it) and,
    for a list intent, what made it fail, if it did. *)
Record FormData := mkFormData {
  fd_intent : string;
  fd_payload : gmap string FieldValue;
  fd_list_failure : option ListFailure;
}.

(** A request: the user id of its session, when its cookie carries an
    authenticated session, and its form data. *)
Record Request := mkRequest {
  session : option UserId;
  formData : FormData;
}.

(** The parsed value of the profile form (the output type of
    [ProfileFormSchema]). *)
Record ProfileForm := mkForm {
  v_name : option string;
  v_username : string;
  v_currentPassword : option string;
  v_newPassword : option string;
  v_email : string;
}.

Record Submission := mkSubmission {
  intent : string;
  payload : gmap string FieldValue;
  error : gmap string (list string);
  value : option ProfileForm;
}.

(** The fields [select]ed by the profile-edit loader. *)
Record LoaderUser := mkLoaderUser {
  lu_id : UserId;
  lu_name : option string;
  lu_username : string;
  lu_email : string;
  lu_image : option string;
}.

Inductive Body :=
| EmptyBody
| LoaderData (user : LoaderUser)
| ActionData (status : string) (submission : Submission).

Inductive Response :=
| Json (status : nat) (body : Body)
| Redirect (location : string) (status : nat).

Definition json (body : Body) : Response := Json 200 body.
Definition redirect (location : string) : Response := Redirect location 302.

(** What reaches the client of a submission handed to [json]: the
    submission is a plain object without a serialisation of its own, so
    the body carries its four properties, the parsed value among them. *)
Definition toJSON (s : Submission)
  : string * gmap string FieldValue
    * (gmap string (list string) * option ProfileForm) :=
  (intent s, payload s, (error s, value s)).

(** ** The handler monad *)

Inductive Event :=
| EvRequireUserId
| EvFormData
| EvFindUnique (w : Where)
| EvVerifyUserPassword (id : UserId) (password : string)
| EvGetPasswordHash (password : string)
| EvUpdate (id : UserId) (data : UserUpdateInput)
| EvLogout (redirectTo : string).

Inductive Thrown :=
| ThrownResponse (r : Response)
| ThrownError (message : string).

Inductive Outcome (A : Type) :=
| Returned (a : A)
| Threw (t : Thrown).
Arguments Returned {A} a.
Arguments Threw {A} t.

Record Run (A : Type) := mkRun {
  outcome : Outcome A;
  final_db : Db;
  trace : list Event;
}.
Arguments mkRun {A} outcome final_db trace.
Arguments outcome {A} r.
Arguments final_db {A} r.
Arguments trace {A} r.

Definition M (A : Type) : Type := Db → Run A.

Definition ret {A} (a : A) : M A := λ db, mkRun (Returned a) db [].

(** Sequencing: the continuation runs on the table the first computation
    left, unless that one threw; the traces follow one another. *)
Definition bind {A B} (f : A → M B) (m : M A) : M B := λ db,
  match m db with
  | mkRun (Returned a) db1 t1 =>
      match f a db1 with
      | mkRun o db2 t2 => mkRun o db2 (t1 ++ t2)
      end
  | mkRun (Threw t) db1 t1 => mkRun (Threw t) db1 t1
  end.

(** [x ← m; k] and [m;; k] are the notations of the monad classes. *)
#[export] Instance M_ret : MRet M := @ret.
#[export] Instance M_bind : MBind M := @bind.

Definition throw {A} (t : Thrown) : M A := λ db, mkRun (Threw t) db [].
Definition emit (e : Event) : M unit := λ db, mkRun (Returned tt) db [e].
Definition getDb : M Db := λ db, mkRun (Returned db) db [].
Definition putDb (db' : Db) : M unit := λ _, mkRun (Returned tt) db' [].

(** ** The ORM calls *)

Definition prisma_user_findUnique (w : Where) : M (option User) :=
  emit (EvFindUnique w);;
  db ← getDb;
  mret (findUnique w db).

(** [prisma.user.update] throws when no row has the id, and when a unique
    index refuses the new username or email. *)
Definition prisma_user_update (id : UserId) (d : UserUpdateInput) : M User :=
  emit (EvUpdate id d);;
  db ← getDb;
  match findUnique (ById id) db with
  | None => throw (ThrownError "Record to update not found.")
  | Some u =>
      if existsb (conflicts id d) db
      then throw (ThrownError "Unique constraint failed")
      else
        putDb (update_row id d db);;
        mret (apply_update d u)
  end.

(** ** The schema library *)

Record ZodIssue := mkIssue {
  path : list string;
  message : string;
}.

(** The three parse statuses: valid, dirty (a check failed, the value is
    still handed on) and aborted (no value). Every failed parse comes with
    the issues it raised; an issue's path is relative to the parsed value. *)
Inductive ParseReturn (A : Type) :=
| OK (value : A)
| DIRTY (value : A) (issues : list ZodIssue)
| INVALID (issues : list ZodIssue).
Arguments OK {A} value.
Arguments DIRTY {A} value issues.
Arguments INVALID {A} issues.

(** A schema reads a field of the payload; [None] is [undefined]. *)
Definition Schema (A : Type) : Type := option FieldValue → ParseReturn A.

Definition issues_of {A} (r : ParseReturn A) : list ZodIssue :=
  match r with
  | OK _ => []
  | DIRTY _ issues | INVALID issues => issues
  end.

Definition is_valid {A} (r : ParseReturn A) : bool :=
  match r with OK _ => true | _ => false end.

Definition value_of {A} (r : ParseReturn A) : option A :=
  match r with
  | OK v | DIRTY v _ => Some v
  | INVALID _ => None
  end.

(** [schema.optional()] *)
Definition optional {A} (schema : Schema A) : Schema (option A) := λ input,
  match input with
  | None => OK None
  | Some _ =>
      match schema input with
      | OK v => OK (Some v)
      | DIRTY v issues => DIRTY (Some v) issues
      | INVALID issues => INVALID issues
      end
  end.

(** [z.union([a, b])]: the first valid option wins, else the first dirty
    one with its issues, else the union itself is invalid. *)
Definition union {A} (a b : Schema A) : Schema A := λ input,
  match a input, b input with
  | OK v, _ => OK v
  | _, OK v => OK v
  | DIRTY v issues, _ => DIRTY v issues
  | _, DIRTY v issues => DIRTY v issues
  | INVALID _, INVALID _ => INVALID [mkIssue [] "Invalid input"]
  end.

Inductive StringCheck :=
| Min (n : nat) (message : string)
| Max (n : nat) (message : string).

Definition check_issue (s : string) (c : StringCheck) : list ZodIssue :=
  match c with
  | Min n m => if bool_decide (String.length s < n) then [mkIssue [] m] else []
  | Max n m => if bool_decide (n < String.length s) then [mkIssue [] m] else []
  end.

Definition received (v : FieldValue) : string :=
  match v with
  | FText _ => "string"
  | FMany _ => "array"
  | FFile _ _ | FNested _ => "object"
  end.

(** [z.string()] followed by length checks: a value that is not a string
    aborts the parse, a failed check only makes it dirty. *)
Definition zString (checks : list StringCheck) : Schema string := λ input,
  match input with
  | None => INVALID [mkIssue [] "Required"]
  | Some (FText s) =>
      match checks ≫= check_issue s with
      | [] => OK s
      | issues => DIRTY s issues
      end
  | Some v => INVALID [mkIssue [] ("Expected string, received " +:+ received v)]
  end.

(** Parsing the value under [key] of an object puts [key] in front of the
    paths of the issues. *)
Definition at_key (key : string) (i : ZodIssue) : ZodIssue :=
  mkIssue (key :: path i) (message i).

(** ** The form library *)

(** The name of the field an issue is reported under. *)
Definition getName (p : list string) : string := String.concat "." p.

(** The [error] object of a submission: the messages of the issues, in
    order, under the name of their field. *)
Definition formatError (issues : list ZodIssue) : gmap string (list string) :=
  foldl (λ (result : gmap string (list string)) e,
           let name := getName (path e) in
           <[name := default [] (result !! name) ++ [message e]]> result)
        ∅ issues.

(** [parseIntent] looks at the text before the first ["/"] of the intent:
    ["list"] makes it a list intent. *)
Fixpoint intent_type (intent : string) : option string :=
  match intent with
  | EmptyString => None
  | String c rest =>
      if Ascii.eqb c (Ascii.ascii_of_nat 47) then Some ""
      else String c <$> intent_type rest
  end.

Definition is_list_intent (intent : string) : bool :=
  bool_decide (intent_type intent = Some "list").

(** The error [parse] throws before it validates anything: that of a
    list intent that fails. No other intent makes it throw. *)
Definition read_error (fd : FormData) : option string :=
  if is_list_intent (fd_intent fd)
  then match fd_list_failure fd with
       | Some MalformedIntent =>
           Some ("Failed parsing intent: " +:+ fd_intent fd)
       | Some NotAList => Some "The list intent can only be applied to a list"
       | Some UnknownOperation => Some "Unknown list intent received"
       | None => None
       end
  else None.

(** Type coercion, which [parse] enables on the schema it is given: a
    string schema is handed [undefined] for the empty string, and an
    optional one also for an empty file. *)
Definition coerceString (input : option FieldValue) : option FieldValue :=
  match input with
  | Some (FText "") => None
  | _ => input
  end.

Definition coerceFile (input : option FieldValue) : option FieldValue :=
  match input with
  | Some (FFile "" 0) => None
  | _ => input
  end.

(** [any().transform(coerceString).pipe(schema)] *)
Definition coerced {A} (schema : Schema A) : Schema A := λ input,
  schema (coerceString input).

(** [any().transform(v => coerceFile(coerceString(v))).pipe(schema.optional())] *)
Definition coerced_optional {A} (schema : Schema A) : Schema (option A) :=
  λ input, optional schema (coerceFile (coerceString input)).

(** [parse(formData, { async: true, schema })]: a failing list intent
    throws; otherwise the payload goes through the schema whatever the
    intent; a valid parse fills [value], any other fills [error]. The
    schema library throws when a parse fails without having raised an
    issue. *)
Definition parse (fd : FormData)
    (schema : gmap string FieldValue → M (ParseReturn ProfileForm))
  : M Submission :=
  match read_error fd with
  | Some m => throw (ThrownError m)
  | None =>
  result ← schema (fd_payload fd);
  match result with
  | OK v => mret (mkSubmission (fd_intent fd) (fd_payload fd) ∅ (Some v))
  | DIRTY _ issues | INVALID issues =>
      match issues with
      | [] => throw (ThrownError "Validation failed but no issues detected.")
      | _ => mret (mkSubmission (fd_intent fd) (fd_payload fd)
                     (formatError issues) None)
      end
  end
  end.

(** [schema.superRefine(refinement)]: the refinement is skipped when the
    schema aborted; otherwise it runs on the parsed value, and every issue
    it adds makes the result dirty. *)
Definition superRefine {A I}
    (schema : I → ParseReturn A)
    (refinement : A → list ZodIssue → M (list ZodIssue))
  : I → M (ParseReturn A) := λ input,
  match schema input with
  | INVALID issues => mret (INVALID issues)
  | OK v =>
      ctx ← refinement v [];
      mret (match ctx with [] => OK v | _ => DIRTY v ctx end)
  | DIRTY v issues =>
      ctx ← refinement v issues;
      mret (DIRTY v ctx)
  end.

(** [ctx.addIssue({ path, code: 'custom', message })] *)
Definition addIssue (ctx : list ZodIssue) (p : list string) (m : string)
  : list ZodIssue := ctx ++ [mkIssue p m].

(** Truthiness of a value of type [string | undefined]. *)
Definition truthy (s : option string) : bool :=
  match s with
  | Some s => negb (bool_decide (s = ""))
  | None => false
  end.

(** ** The route modules *)

Section Routes.

(** The field schemas of the user-validation module: string schemas, of
    which the routes know no more. *)
Variables nameSchema usernameSchema passwordSchema emailSchema : Schema string.

(** The password hashing of the auth module: hashing a password and
    comparing a password with a stored hash. *)
Variable hashPassword : string → string.
Variable comparePassword : string → string → bool.

(** Where the auth module sends a request without a session. *)
Variable failureRedirect : string.

(** Modelled from the spec: [requireUserId] of the auth module. A request
    whose cookie carries an authenticated session yields the user id of
    the session; any other request is answered by a thrown redirect. *)
Definition requireUserId (request : Request) : M UserId :=
  emit EvRequireUserId;;
  match session request with
  | Some userId => mret userId
  | None => throw (ThrownResponse (redirect failureRedirect))
  end.

(** Modelled from the spec: [verifyUserPassword] of the auth module: the
    row of the user when the password matches its stored hash, [null]
    otherwise, also when there is no such row. *)
Definition verifyUserPassword (id : UserId) (password : string)
  : M (option UserId) :=
  emit (EvVerifyUserPassword id password);;
  db ← getDb;
  mret (match findUnique (ById id) db with
        | Some u => if comparePassword password (u_hash u)
                    then Some (u_id u) else None
        | None => None
        end).

(** Modelled from the spec: [getPasswordHash] of the auth module. *)
Definition getPasswordHash (password : string) : M string :=
  emit (EvGetPasswordHash password);;
  mret (hashPassword password).

(** Modelled from the spec: [authenticator.logout(request, { redirectTo })]
    ends the session and answers with a thrown redirect. *)
Definition authenticator_logout (request : Request) (redirectTo : string)
  : M Response :=
  emit (EvLogout redirectTo);;
  throw (ThrownResponse (redirect redirectTo)).

Definition request_formData (request : Request) : M FormData :=
  emit EvFormData;;
  mret (formData request).

(** [z.string().min(0).max(0)] *)
Definition emptyString : Schema string :=
  zString [Min 0 "String must contain at least 0 character(s)";
           Max 0 "String must contain at most 0 character(s)"].

(** The results of the five fields of [ProfileFormSchema], in the order of
    its shape, as [parse] runs them: with type coercion enabled on every
    string schema, on the options of the unions and on the optional
    fields. Keys of the payload outside the shape are dropped. *)
Definition field_name (p : gmap string FieldValue) :=
  coerced_optional (coerced nameSchema) (p !! "name").
Definition field_username (p : gmap string FieldValue) :=
  coerced usernameSchema (p !! "username").
Definition field_currentPassword (p : gmap string FieldValue) :=
  coerced_optional (union (coerced passwordSchema) (coerced emptyString))
    (p !! "currentPassword").
Definition field_newPassword (p : gmap string FieldValue) :=
  coerced_optional (union (coerced passwordSchema) (coerced emptyString))
    (p !! "newPassword").
Definition field_email (p : gmap string FieldValue) :=
  coerced emailSchema (p !! "email").

Definition field_issues (p : gmap string FieldValue) : list ZodIssue :=
  ((at_key "name" <$> issues_of (field_name p))
   ++ (at_key "username" <$> issues_of (field_username p))
   ++ (at_key "currentPassword" <$> issues_of (field_currentPassword p))
   ++ (at_key "newPassword" <$> issues_of (field_newPassword p))
   ++ (at_key "email" <$> issues_of (field_email p))).

(** [ProfileFormSchema]: every field is parsed; one aborted field aborts
    the object, one dirty field makes it dirty. *)
Definition ProfileFormSchema (p : gmap string FieldValue)
  : ParseReturn ProfileForm :=
  match value_of (field_name p), value_of (field_username p),
        value_of (field_currentPassword p), value_of (field_newPassword p),
        value_of (field_email p) with
  | Some name, Some username, Some currentPassword, Some newPassword,
    Some email =>
      let v := mkForm name username currentPassword newPassword email in
      if is_valid (field_name p) && is_valid (field_username p)
         && is_valid (field_currentPassword p)
         && is_valid (field_newPassword p) && is_valid (field_email p)
      then OK v
      else DIRTY v (field_issues p)
  | _, _, _, _, _ => INVALID (field_issues p)
  end.

(** The function handed to [superRefine] in [action]. *)
Definition refinement (userId : UserId) (v : ProfileForm)
    (ctx : list ZodIssue) : M (list ZodIssue) :=
  existingUsername ← prisma_user_findUnique (ByUsername (v_username v));
  let ctx :=
    match existingUsername with
    | Some u =>
        if bool_decide (u_id u ≠ userId)
        then addIssue ctx ["username"]
               "A user already exists with this username"
        else ctx
    | None => ctx
    end in
  existingEmail ← prisma_user_findUnique (ByEmail (v_email v));
  let ctx :=
    match existingEmail with
    | Some u =>
        if bool_decide (u_id u ≠ userId)
        then addIssue ctx ["email"] "A user already exists with this email"
        else ctx
    | None => ctx
    end in
  let ctx :=
    if truthy (v_newPassword v) && negb (truthy (v_currentPassword v))
    then addIssue ctx ["newPassword"]
           "Must provide current password to change password."
    else ctx in
  if truthy (v_currentPassword v) && truthy (v_newPassword v)
  then
    user ← verifyUserPassword userId (default "" (v_currentPassword v));
    mret (match user with
          | None => addIssue ctx ["currentPassword"] "Incorrect password."
          | Some _ => ctx
          end)
  else mret ctx.

Definition delete_payload (key : string) (s : Submission) : Submission :=
  mkSubmission (intent s) (delete key (payload s)) (error s) (value s).

(** [delete submission.value?.currentPassword] and the same for
    [newPassword]. *)
Definition delete_value_passwords (s : Submission) : Submission :=
  mkSubmission (intent s) (payload s) (error s)
    ((λ v, mkForm (v_name v) (v_username v) None None (v_email v))
       <$> value s).

(** *** The profile-edit route *)

Definition loader (request : Request) : M Response :=
  userId ← requireUserId request;
  user ← prisma_user_findUnique (ById userId);
  match user with
  | None =>
      r ← authenticator_logout request "/";
      throw (ThrownResponse r)
  | Some u =>
      mret (json (LoaderData
                    (mkLoaderUser (u_id u) (u_name u) (u_username u)
                       (u_email u) (u_image u))))
  end.

Definition action (request : Request) : M Response :=
  userId ← requireUserId request;
  formData ← request_formData request;
  submission ← parse formData
                 (superRefine ProfileFormSchema (refinement userId));
  let submission := delete_payload "currentPassword" submission in
  let submission := delete_payload "newPassword" submission in
  if bool_decide (intent submission ≠ "submit")
  then
    let submission := delete_value_passwords submission in
    mret (json (ActionData "idle" submission))
  else
    match value submission with
    | None => mret (Json 400 (ActionData "error" submission))
    | Some data =>
        password ←
          (if truthy (v_newPassword data)
           then hash ← getPasswordHash (default "" (v_newPassword data));
                mret (Some hash)
           else mret None);
        updatedUser ← prisma_user_update userId
                        (mkData (v_name data) (v_username data)
                           (v_email data) password);
        mret (Redirect ("/users/" +:+ u_username updatedUser) 302)
    end.

(** *** The form of the profile-edit page ([EditUserProfile]) *)

(** [onValidate({ formData })]: in the browser the form data goes through
    [ProfileFormSchema] alone, without the refinement. *)
Definition onValidate (formData : FormData) : M Submission :=
  parse formData (λ payload, mret (ProfileFormSchema payload)).

(** The [defaultValue] of the form, from the loader data; the name is
    [data.user.name ?? '']. *)
Definition defaultValue (user : LoaderUser) : gmap string string :=
  {[ "username" := lu_username user;
     "name" := default "" (lu_name user);
     "email" := lu_email user ]}.

(** What the five inputs of the form hold when it is saved as the page
    shows it: the default values, and two empty passwords. *)
Definition untouched (user : LoaderUser) : gmap string string :=
  <["currentPassword" := ""]> (<["newPassword" := ""]> (defaultValue user)).

(** *** The new-note route *)

Definition notes_new_loader (request : Request) : M Response :=
  requireUserId request;;
  mret (json EmptyBody).

(** *** The handlers as functions of the table

    What the refinement, the validation and the update come to once the
    table is known; the lemmas below prove that the handlers compute
    exactly this. *)

(** Another user holds the value looked up. *)
Definition taken (userId : UserId) (w : Where) (db : Db) : bool :=
  match findUnique w db with
  | Some u => bool_decide (u_id u ≠ userId)
  | None => false
  end.

(** The password matches the stored hash of the user. *)
Definition verified (userId : UserId) (password : string) (db : Db) : bool :=
  match findUnique (ById userId) db with
  | Some u => comparePassword password (u_hash u)
  | None => false
  end.

Definition changes_password (v : ProfileForm) : bool :=
  truthy (v_currentPassword v) && truthy (v_newPassword v).

(** The issues the refinement adds, in order. *)
Definition added (userId : UserId) (v : ProfileForm) (db : Db)
  : list ZodIssue :=
  ((if taken userId (ByUsername (v_username v)) db
    then [mkIssue ["username"] "A user already exists with this username"]
    else [])
   ++ (if taken userId (ByEmail (v_email v)) db
       then [mkIssue ["email"] "A user already exists with this email"]
       else [])
   ++ (if truthy (v_newPassword v) && negb (truthy (v_currentPassword v))
       then [mkIssue ["newPassword"]
               "Must provide current password to change password."]
       else [])
   ++ (if changes_password v
          && negb (verified userId (default "" (v_currentPassword v)) db)
       then [mkIssue ["currentPassword"] "Incorrect password."]
       else [])).

(** The lookups the refinement makes, in order. *)
Definition lookups (userId : UserId) (v : ProfileForm) : list Event :=
  ([EvFindUnique (ByUsername (v_username v));
    EvFindUnique (ByEmail (v_email v))]
   ++ (if changes_password v
       then [EvVerifyUserPassword userId (default "" (v_currentPassword v))]
       else [])).

(** The result of the refined schema. *)
Definition refined (userId : UserId) (p : gmap string FieldValue) (db : Db)
  : ParseReturn ProfileForm :=
  match ProfileFormSchema p with
  | INVALID issues => INVALID issues
  | OK v => match added userId v db with [] => OK v | ctx => DIRTY v ctx end
  | DIRTY v issues => DIRTY v (issues ++ added userId v db)
  end.

Definition refine_trace (userId : UserId) (p : gmap string FieldValue)
  : list Event :=
  match value_of (ProfileFormSchema p) with
  | Some v => lookups userId v
  | None => []
  end.

(** The lookups of [parse]: none when it throws on the intent. *)
Definition read_trace (userId : UserId) (fd : FormData) : list Event :=
  match read_error fd with
  | Some _ => []
  | None => refine_trace userId (fd_payload fd)
  end.

(** The submission [parse] builds from a parse result, unless it threw on
    the intent. *)
Definition submitted (fd : FormData) (r : ParseReturn ProfileForm)
  : Outcome Submission :=
  match read_error fd with
  | Some m => Threw (ThrownError m)
  | None =>
  match r with
  | OK v => Returned (mkSubmission (fd_intent fd) (fd_payload fd) ∅ (Some v))
  | DIRTY _ issues | INVALID issues =>
      match issues with
      | [] => Threw (ThrownError "Validation failed but no issues detected.")
      | _ => Returned (mkSubmission (fd_intent fd) (fd_payload fd)
                         (formatError issues) None)
      end
  end
  end.

(** What [action] passes to [prisma.user.update]. *)
Definition update_data (data : ProfileForm) : UserUpdateInput :=
  mkData (v_name data) (v_username data) (v_email data)
    (if truthy (v_newPassword data)
     then Some (hashPassword (default "" (v_newPassword data)))
     else None).

Definition hashing (data : ProfileForm) : list Event :=
  if truthy (v_newPassword data)
  then [EvGetPasswordHash (default "" (v_newPassword data))]
  else [].

(** The parsed value asks for a new password without giving the current
    one. *)
Definition lacks_current (v : ProfileForm) : Prop :=
  (∃ new, v_newPassword v = Some new ∧ new ≠ "")
  ∧ (v_currentPassword v = None ∨ v_currentPassword v = Some "").

(** The parsed value gives both passwords, and the current one does not
    match the stored hash of the user (or the user has no row). *)
Definition wrong_current (userId : UserId) (v : ProfileForm) (db : Db) : Prop :=
  ∃ cur new,
    v_currentPassword v = Some cur ∧ cur ≠ ""
    ∧ v_newPassword v = Some new ∧ new ≠ ""
    ∧ ∀ u, findUnique (ById userId) db = Some u →
           comparePassword cur (u_hash u) = false.

End Routes.

(** ** Vocabulary of the statements *)

(** A message is reported under a field. *)
Definition reports (error : gmap string (list string)) (field m : string)
  : Prop :=
  ∃ msgs, error !! field = Some msgs ∧ m ∈ msgs.

(** The response a run ends with, returned or thrown. *)
Definition response_of (r : Run Response) : option Response :=
  match outcome r with
  | Returned x | Threw (ThrownResponse x) => Some x
  | Threw (ThrownError _) => None
  end.

(** What an update may change of a row: the row of [userId] keeps its id
    and image, every other row is left as it was; [keep_hash] adds that
    the row of [userId] keeps its hash too. *)
Definition row_frame (keep_hash : bool) (userId : UserId) (u u' : User) : Prop :=
  u_id u' = u_id u ∧ u_image u' = u_image u
  ∧ (keep_hash = true → u_hash u' = u_hash u)
  ∧ (u_id u ≠ userId → u' = u).

(** The events that read the table. *)
Definition is_lookup (e : Event) : bool :=
  match e with
  | EvFindUnique _ | EvVerifyUserPassword _ _ => true
  | _ => false
  end.

(** ** An instance of what the routes leave open

    Field schemas in the style of the schema library (a string within
    length bounds), a password hashing that can be run, and a login page.
    The instance serves to run the handlers on concrete requests. *)

Module Sample.

Definition nameSchema : Schema string :=
  zString [Min 3 "Name is too short"; Max 40 "Name is too long"].
Definition usernameSchema : Schema string :=
  zString [Min 3 "Username is too short"; Max 20 "Username is too long"].
Definition passwordSchema : Schema string :=
  zString [Min 6 "Password is too short"; Max 100 "Password is too long"].
Definition emailSchema : Schema string :=
  zString [Min 3 "Email is too short"; Max 100 "Email is too long"].

Definition hashPassword (password : string) : string := "hash:" +:+ password.
Definition comparePassword (password hash : string) : bool :=
  bool_decide (hash = hashPassword password).

Definition failureRedirect : string := "/login".

Abbreviation loader := (loader failureRedirect).
Abbreviation action :=
  (action nameSchema usernameSchema passwordSchema emailSchema
     hashPassword comparePassword failureRedirect).
Abbreviation ProfileFormSchema :=
  (ProfileFormSchema nameSchema usernameSchema passwordSchema emailSchema).
Abbreviation refinement := (refinement comparePassword).

Definition kody : User :=
  mkUser "u1" (Some "Kody") "kody" "kody@example.com" None "hash:kodylovesyou".
Definition hannah : User :=
  mkUser "u2" None "hannah" "hannah@example.com" None "hash:hannah123".

Definition db : Db := [kody; hannah].

Definition form (fields : list (string * string)) : gmap string FieldValue :=
  list_to_map (prod_map id FText <$> fields).

Definition post (userId : option UserId) (intent : string)
    (fields : list (string * string)) : Request :=
  mkRequest userId (mkFormData intent (form fields) None).

End Sample.

(** Requests to run the handlers on. *)

Module Runs.

Import Sample.

(** Kody renames himself. *)
Definition rename : Request :=
  post (Some "u1") "submit"
    [("username", "kody2"); ("email", "kody@example.com")].

(** Kody asks for the username and the email of Hannah. *)
Definition steal : Request :=
  post (Some "u1") "submit"
    [("username", "hannah"); ("email", "hannah@example.com")].

(** Kody asks for the email of Hannah and leaves the username out. *)
Definition steal_email_only : Request :=
  post (Some "u1") "submit" [("email", "hannah@example.com")].

(** Kody asks for a new password without his current one. *)
Definition new_password_only : Request :=
  post (Some "u1") "submit"
    [("username", "kody"); ("email", "kody@example.com");
     ("newPassword", "abcdefg")].

(** The same, the username left out. *)
Definition new_password_no_username : Request :=
  post (Some "u1") "submit"
    [("email", "kody@example.com"); ("newPassword", "abcdefg")].

(** A session whose user has no row. *)
Definition ghost : Request :=
  post (Some "u9") "submit"
    [("username", "ghost"); ("email", "ghost@example.com")].

(** No session. *)
Definition anonymous : Request :=
  post None "submit" [("username", "kody2"); ("email", "kody@example.com")].

Definition renamed : ProfileForm :=
  mkForm None "kody2" None None "kody@example.com".

Definition body_of (r : Run Response) : Body :=
  match outcome r with
  | Returned (Json _ body) => body
  | _ => EmptyBody
  end.

(** Kody has one field checked while typing. *)
Definition check_username : Request :=
  post (Some "u1") "validate/username"
    [("username", "hannah"); ("email", "kody@example.com")].

(** Kody changes his name and keeps the rest. *)
Definition keep : Request :=
  post (Some "u1") "submit"
    [("name", "Kody K"); ("username", "kody"); ("email", "kody@example.com")].

Definition kept : ProfileForm :=
  mkForm (Some "Kody K") "kody" None None "kody@example.com".

(** Kody changes his password. *)
Definition change_password : Request :=
  post (Some "u1") "submit"
    [("username", "kody"); ("email", "kody@example.com");
     ("currentPassword", "kodylovesyou"); ("newPassword", "abcdefg")].

Definition password_changed : ProfileForm :=
  mkForm None "kody" (Some "kodylovesyou") (Some "abcdefg")
    "kody@example.com".

(** Kody sends a current password, a wrong one, and no new password. *)
Definition current_only : Request :=
  post (Some "u1") "submit"
    [("username", "kody"); ("email", "kody@example.com");
     ("currentPassword", "wrongwrong")].

Definition with_current_only : ProfileForm :=
  mkForm None "kody" (Some "wrongwrong") None "kody@example.com".

(** Kody asks for a username of two letters. *)
Definition short_username : Request :=
  post (Some "u1") "submit"
    [("username", "ab"); ("email", "kody@example.com")].

(** Kody asks for the email of Hannah and sends an empty username. *)
Definition steal_email_empty_username : Request :=
  post (Some "u1") "submit"
    [("username", ""); ("email", "hannah@example.com")].

(** A list intent whose text after the slash is no JSON. *)
Definition broken_list : Request :=
  mkRequest (Some "u1")
    (mkFormData "list/oops"
       (form [("username", "kody"); ("email", "kody@example.com")])
       (Some MalformedIntent)).

(** Hannah, who has no name, opens the page and saves the form as the
    page shows it: the name and the two passwords are empty. *)
Definition page : Request := post (Some "u2") "submit" [].

Definition hannah_data : LoaderUser :=
  mkLoaderUser "u2" None "hannah" "hannah@example.com" None.

Definition prefilled : Request :=
  post (Some "u2") "submit"
    [("username", "hannah"); ("name", ""); ("email", "hannah@example.com");
     ("currentPassword", ""); ("newPassword", "")].

End Runs.

(** * Proofs *)

(** ** Facts about the table *)

Lemma findUnique_Some w db u :
  findUnique w db = Some u → u ∈ db ∧ matches w u = true.
Proof.
  unfold findUnique. intros H. apply find_some in H as [Hin Hm].
  split; [by apply list_elem_of_In | done].
Qed.

(** With a unique index on a column, the lookup by that column finds the
    very row that holds the value. *)
Lemma find_by_unique_column {K} `{EqDecision K} (col : User → K) (db : Db) u :
  NoDup (col <$> db) → u ∈ db →
  List.find (λ x, bool_decide (col x = col u)) db = Some u.
Proof.
  induction db as [|x db IH]; intros Hnd Hin.
  - by apply elem_of_nil in Hin.
  - rewrite fmap_cons in Hnd. apply NoDup_cons in Hnd as [Hx Hnd].
    cbn. case_bool_decide as Hc.
    + apply elem_of_cons in Hin as [->|Hin]; [done|].
      exfalso. apply Hx. rewrite Hc. apply list_elem_of_fmap. by exists u.
    + apply elem_of_cons in Hin as [->|Hin]; [done|]. by apply IH.
Qed.

Lemma findUnique_username db u :
  db_unique db → u ∈ db → findUnique (ByUsername (u_username u)) db = Some u.
Proof. intros (_ & H & _). by apply (find_by_unique_column u_username). Qed.

Lemma findUnique_email db u :
  db_unique db → u ∈ db → findUnique (ByEmail (u_email u)) db = Some u.
Proof. intros (_ & _ & H). by apply (find_by_unique_column u_email). Qed.

(** ** Running the monad *)

Lemma run_bind {A B} (m : M A) (f : A → M B) db a db1 t1 :
  m db = mkRun (Returned a) db1 t1 →
  (m ≫= f) db =
  mkRun (outcome (f a db1)) (final_db (f a db1)) (t1 ++ trace (f a db1)).
Proof.
  intros H. unfold mbind, M_bind, bind. rewrite H. by destruct (f a db1).
Qed.

Lemma run_bind_throw {A B} (m : M A) (f : A → M B) db t db1 t1 :
  m db = mkRun (Threw t) db1 t1 → (m ≫= f) db = mkRun (Threw t) db1 t1.
Proof. intros H. unfold mbind, M_bind, bind. by rewrite H. Qed.

Lemma findUnique_run w db :
  prisma_user_findUnique w db = mkRun (Returned (findUnique w db)) db [EvFindUnique w].
Proof. reflexivity. Qed.

Lemma truthy_true s : truthy s = true ↔ ∃ x, s = Some x ∧ x ≠ "".
Proof.
  destruct s as [x|]; cbn.
  - rewrite negb_true_iff, bool_decide_eq_false. split; [by eauto|].
    by intros (y & [= <-] & Hy).
  - split; [done|]. by intros (y & Hy & _).
Qed.

Lemma truthy_false s : truthy s = false ↔ s = None ∨ s = Some "".
Proof.
  destruct s as [x|]; cbn.
  - rewrite negb_false_iff, bool_decide_eq_true. split; [intros ->; by right|].
    by intros [Hx|[= ->]].
  - split; [by left|done].
Qed.

(** *** Field-level errors *)

Lemma formatError_step issues : ∀ (acc : gmap string (list string)) field m,
  reports acc field m ∨ mkIssue [field] m ∈ issues →
  reports
    (foldl (λ (result : gmap string (list string)) e,
              let name := getName (path e) in
              <[name := default [] (result !! name) ++ [message e]]> result)
       acc issues) field m.
Proof.
  induction issues as [|e issues IH]; intros acc field m Hcase; cbn.
  - destruct Hcase as [H|H]; [done|]. by apply elem_of_nil in H.
  - apply IH. destruct Hcase as [(msgs & Hl & Hin)|Hin].
    + left. destruct (decide (getName (path e) = field)) as [Hn|Hn].
      * eexists. rewrite Hn, lookup_insert_eq. split; [done|].
        rewrite Hl. cbn. apply elem_of_app. by left.
      * exists msgs. by rewrite lookup_insert_ne.
    + apply elem_of_cons in Hin as [<-|Hin]; [|by right].
      left. cbn. eexists. rewrite lookup_insert_eq. split; [done|].
      apply elem_of_app. right. by apply list_elem_of_singleton.
Qed.

Lemma formatError_reports issues field m :
  mkIssue [field] m ∈ issues → reports (formatError issues) field m.
Proof. intros H. apply formatError_step. by right. Qed.

Lemma row_frame_refl keep userId db : Forall2 (row_frame keep userId) db db.
Proof. induction db; constructor; [by repeat split|done]. Qed.

Lemma update_row_frame userId d db :
  Forall2 (row_frame (bool_decide (data_password d = None)) userId)
    db (update_row userId d db).
Proof.
  unfold update_row.
  induction db as [|u db IH]; [constructor|].
  rewrite fmap_cons. constructor; [|done].
  unfold row_frame. destruct (bool_decide (u_id u = userId)) eqn:Hu; cbn.
  - split_and!; try done.
    + intros Hk. apply bool_decide_eq_true in Hk. by rewrite Hk.
    + intros Hne. by apply bool_decide_eq_true in Hu.
  - by split_and!.
Qed.

Section Theory.

Variables nameSchema usernameSchema passwordSchema emailSchema : Schema string.
Variable hashPassword : string → string.
Variable comparePassword : string → string → bool.
Variable failureRedirect : string.

Abbreviation ProfileFormSchema :=
  (ProfileFormSchema nameSchema usernameSchema passwordSchema emailSchema).
Abbreviation refinement := (refinement comparePassword).
Abbreviation validate userId := (superRefine ProfileFormSchema (refinement userId)).
Abbreviation loader := (loader failureRedirect).
Abbreviation action :=
  (action nameSchema usernameSchema passwordSchema emailSchema
     hashPassword comparePassword failureRedirect).
Abbreviation notes_new_loader := (notes_new_loader failureRedirect).
Abbreviation verified := (verified comparePassword).
Abbreviation added := (added comparePassword).
Abbreviation refined :=
  (refined nameSchema usernameSchema passwordSchema emailSchema
     comparePassword).
Abbreviation refine_trace :=
  (refine_trace nameSchema usernameSchema passwordSchema emailSchema).
Abbreviation read_trace :=
  (read_trace nameSchema usernameSchema passwordSchema emailSchema).
Abbreviation update_data := (update_data hashPassword).
Abbreviation wrong_current := (wrong_current comparePassword).

(** *** The refinement as a function of the table *)

Lemma refinement_run userId v ctx db :
  refinement userId v ctx db
  = mkRun (Returned (ctx ++ added userId v db)) db (lookups userId v).
Proof.
  unfold refinement, added, lookups, changes_password, taken, verified,
    verifyUserPassword, prisma_user_findUnique, addIssue.
  unfold mbind, M_bind, bind, mret, M_ret, ret, emit, getDb. cbn.
  destruct (findUnique (ByUsername _) db) as [u1|];
    destruct (findUnique (ByEmail _) db) as [u2|];
    repeat case_bool_decide;
    destruct (truthy (v_newPassword v)), (truthy (v_currentPassword v)); cbn;
    try destruct (findUnique (ById userId) db) as [u3|]; cbn;
    try destruct (comparePassword _ _); cbn;
    rewrite ?app_nil_r, <- ?app_assoc; try done.
Qed.

(** *** Validation as a function of the table *)

Lemma validate_run userId p db :
  validate userId p db
  = mkRun (Returned (refined userId p db)) db (refine_trace userId p).
Proof.
  unfold superRefine, refined, refine_trace.
  destruct (ProfileFormSchema p) as [v|v issues|issues]; cbn; [| |done].
  - erewrite run_bind by apply refinement_run.
    cbn. rewrite app_nil_r. by destruct (added userId v db).
  - erewrite run_bind by apply refinement_run. cbn. by rewrite app_nil_r.
Qed.

(** Only a list intent can make [parse] throw on the intent. *)
Lemma read_error_not_list fd :
  is_list_intent (fd_intent fd) = false → read_error fd = None.
Proof. unfold read_error. by intros ->. Qed.

Lemma read_error_submit fd : fd_intent fd = "submit" → read_error fd = None.
Proof. intros H. apply read_error_not_list. by rewrite H. Qed.

Lemma read_trace_submit userId fd :
  fd_intent fd = "submit" →
  read_trace userId fd = refine_trace userId (fd_payload fd).
Proof. intros H. unfold read_trace. by rewrite (read_error_submit fd H). Qed.

(** The errors of a list intent are not those of the update. *)
Lemma read_error_message fd m :
  read_error fd = Some m →
  m ≠ "Record to update not found." ∧ m ≠ "Unique constraint failed"
  ∧ m ≠ "Validation failed but no issues detected.".
Proof.
  unfold read_error. destruct (is_list_intent _); [|done].
  destruct (fd_list_failure fd) as [[| |]|]; intros [= <-]; done.
Qed.

Lemma parse_run fd userId db :
  parse fd (validate userId) db
  = mkRun (submitted fd (refined userId (fd_payload fd) db)) db
      (read_trace userId fd).
Proof.
  unfold parse, submitted, read_trace.
  destruct (read_error fd) as [m|]; [done|].
  erewrite run_bind by apply validate_run.
  destruct (refined userId (fd_payload fd) db) as [v|v [|i issues]|[|i issues]];
    cbn; by rewrite app_nil_r.
Qed.

(** The run of [action] on a request with a session, case by case. *)
Lemma action_run request db userId :
  session request = Some userId →
  let fd := formData request in
  let before := [EvRequireUserId; EvFormData] ++ read_trace userId fd in
  action request db =
  match submitted fd (refined userId (fd_payload fd) db) with
  | Threw t => mkRun (Threw t) db before
  | Returned s =>
      let s' := delete_payload "newPassword" (delete_payload "currentPassword" s) in
      if bool_decide (intent s ≠ "submit")
      then mkRun (Returned (json (ActionData "idle" (delete_value_passwords s'))))
             db before
      else
        match value s with
        | None => mkRun (Returned (Json 400 (ActionData "error" s'))) db before
        | Some data =>
            let d := update_data data in
            let tr := before ++ hashing data ++ [EvUpdate userId d] in
            match findUnique (ById userId) db with
            | None =>
                mkRun (Threw (ThrownError "Record to update not found.")) db tr
            | Some u =>
                if existsb (conflicts userId d) db
                then mkRun (Threw (ThrownError "Unique constraint failed")) db tr
                else mkRun (Returned (Redirect ("/users/" +:+ data_username d) 302))
                       (update_row userId d db) tr
            end
        end
  end.
Proof.
  intros Hs fd before. subst before. unfold action.
  erewrite run_bind by (unfold requireUserId, emit; rewrite Hs; reflexivity).
  erewrite run_bind by reflexivity.
  destruct (submitted fd (refined userId (fd_payload fd) db)) as [s|t] eqn:Hsub.
  2:{ erewrite run_bind_throw; [reflexivity|].
      fold fd. rewrite parse_run, Hsub. reflexivity. }
  erewrite run_bind by (fold fd; rewrite parse_run, Hsub; reflexivity).
  cbn [delete_payload intent value].
  case_bool_decide as Hi.
  { cbn. by rewrite app_nil_r. }
  destruct (value s) as [data|]; [|cbn; by rewrite app_nil_r].
  unfold update_data, hashing, prisma_user_update, getPasswordHash.
  unfold mbind, M_bind, bind, mret, M_ret, ret, emit, getDb, putDb, throw.
  destruct (truthy (v_newPassword data)); cbn;
    destruct (findUnique (ById userId) db) as [u|]; cbn;
    try destruct (existsb _ db); cbn; rewrite ?app_nil_r; done.
Qed.

(** *** Sessions *)

(** C5. The profile-edit loader, the profile-edit action and the new-note
    loader all start by requiring a session; on a request without one they
    stop there with the redirect thrown by [requireUserId]: the table is
    neither read nor written, the form is not read, nothing is validated. *)
Theorem handlers_require_session (request : Request) (db : Db) :
  Forall (λ handler : Request → M Response,
            head (trace (handler request db)) = Some EvRequireUserId
            ∧ (session request = None →
               handler request db
               = mkRun (Threw (ThrownResponse (redirect failureRedirect))) db
                   [EvRequireUserId]))
    [loader; action; notes_new_loader].
Proof.
  destruct (session request) as [userId|] eqn:Hs.
  - assert (Hr : requireUserId failureRedirect request db
                 = mkRun (Returned userId) db [EvRequireUserId]).
    { unfold requireUserId, emit. rewrite Hs. reflexivity. }
    repeat constructor; try done.
    + unfold loader. erewrite run_bind by exact Hr. done.
    + rewrite (action_run _ _ _ Hs). cbn zeta.
      repeat (case_match; try done).
    + unfold notes_new_loader. erewrite run_bind by exact Hr. done.
  - assert (Hr : requireUserId failureRedirect request db
                 = mkRun (Threw (ThrownResponse (redirect failureRedirect)))
                     db [EvRequireUserId]).
    { unfold requireUserId, emit. rewrite Hs. reflexivity. }
    repeat constructor.
    + unfold loader. erewrite run_bind_throw by exact Hr. done.
    + unfold loader. erewrite run_bind_throw by exact Hr. done.
    + unfold action. erewrite run_bind_throw by exact Hr. done.
    + unfold action. erewrite run_bind_throw by exact Hr. done.
    + unfold notes_new_loader. erewrite run_bind_throw by exact Hr. done.
    + unfold notes_new_loader. erewrite run_bind_throw by exact Hr. done.
Qed.

(** C6. When the user id of the session matches no row of the table, the
    profile-edit loader logs the session out and throws the redirect to
    ["/"]; it returns no user data. *)
Theorem loader_unknown_user (request : Request) (db : Db) (userId : UserId) :
  session request = Some userId →
  (∀ u, u ∈ db → u_id u ≠ userId) →
  loader request db
  = mkRun (Threw (ThrownResponse (Redirect "/" 302))) db
      [EvRequireUserId; EvFindUnique (ById userId); EvLogout "/"].
Proof.
  intros Hs Hnone.
  assert (Hf : findUnique (ById userId) db = None).
  { destruct (findUnique (ById userId) db) as [u|] eqn:Hf; [|done].
    apply findUnique_Some in Hf as [Hin Hm]. cbn in Hm.
    apply bool_decide_eq_true in Hm. by destruct (Hnone u Hin). }
  unfold loader.
  erewrite run_bind by (unfold requireUserId, emit; rewrite Hs; reflexivity).
  erewrite run_bind by apply findUnique_run.
  rewrite Hf. reflexivity.
Qed.

(** *** What the action answers *)

Lemma submitted_inv fd r s :
  submitted fd r = Returned s →
  intent s = fd_intent fd ∧ payload s = fd_payload fd
  ∧ (value s = None ∨ ∃ v, r = OK v ∧ value s = Some v).
Proof.
  unfold submitted. destruct (read_error fd); [done|].
  destruct r as [v|v [|i issues]|[|i issues]]; cbn; intros [= <-]; cbn;
    eauto 6.
Qed.

Lemma submitted_read fd r s :
  submitted fd r = Returned s → read_error fd = None.
Proof. unfold submitted. by destruct (read_error fd). Qed.

Lemma submitted_throw fd r t :
  submitted fd r = Threw t → ∃ m, t = ThrownError m.
Proof.
  unfold submitted. destruct (read_error fd); [intros [= <-]; eauto|].
  destruct r as [v|v [|i issues]|[|i issues]]; cbn; intros [= <-]; eauto.
Qed.

(** What [parse] throws is not an error of the update. *)
Lemma submitted_throw_message fd r t :
  submitted fd r = Threw t →
  t ≠ ThrownError "Record to update not found."
  ∧ t ≠ ThrownError "Unique constraint failed".
Proof.
  unfold submitted. destruct (read_error fd) as [m|] eqn:Hm.
  - intros [= <-]. apply read_error_message in Hm as (H1 & H2 & _).
    split; congruence.
  - destruct r as [v|v [|i issues]|[|i issues]]; cbn; intros [= <-]; done.
Qed.

Lemma validate_OK userId p db v :
  outcome (validate userId p db) = Returned (OK v) →
  refined userId p db = OK v.
Proof. rewrite validate_run. cbn. congruence. Qed.

Lemma refined_OK userId p db v :
  refined userId p db = OK v →
  ProfileFormSchema p = OK v ∧ added userId v db = [].
Proof.
  unfold refined.
  destruct (ProfileFormSchema p) as [v'|v' issues|issues]; [|done..].
  destruct (added userId v' db) eqn:Ha; [|done]. by intros [= ->].
Qed.

(** C8. Whatever the request, a JSON response of the action carries a
    submission whose payload has lost its [currentPassword] and
    [newPassword] entries (and kept every other one); when the intent is
    not ['submit'] the parsed value has lost both fields too, and in the
    ['submit'] case the JSON response carries no parsed value at all. The
    serialised submission therefore holds neither password. *)
Theorem action_json_hides_passwords
    (request : Request) (db : Db) (code : nat) (body : Body) :
  response_of (action request db) = Some (Json code body) →
  ∃ status s,
    body = ActionData status s
    ∧ payload s
      = delete "newPassword"
          (delete "currentPassword" (fd_payload (formData request)))
    ∧ payload s !! "currentPassword" = None
    ∧ payload s !! "newPassword" = None
    ∧ (toJSON s).1.2 !! "currentPassword" = None
    ∧ (toJSON s).1.2 !! "newPassword" = None
    ∧ (intent s ≠ "submit" →
       ∀ v, value s = Some v →
            v_currentPassword v = None ∧ v_newPassword v = None)
    ∧ (intent s = "submit" → value s = None).
Proof.
  destruct (session request) as [userId|] eqn:Hs.
  2:{ unfold action.
      erewrite run_bind_throw
        by (unfold requireUserId, emit; rewrite Hs; reflexivity).
      unfold response_of, redirect. cbn. intros [=]. }
  rewrite (action_run _ _ _ Hs). cbn zeta.
  destruct (submitted _ _) as [s|t] eqn:Hsub.
  2:{ by apply submitted_throw in Hsub as [m ->]. }
  apply submitted_inv in Hsub as (Hi & Hp & Hv).
  assert (Hdel : ∀ s', payload s' = delete "newPassword"
                   (delete "currentPassword" (fd_payload (formData request))) →
            payload s' !! "currentPassword" = None
            ∧ payload s' !! "newPassword" = None).
  { intros s' ->. split.
    - rewrite lookup_delete_ne by done. apply lookup_delete_eq.
    - apply lookup_delete_eq. }
  case_bool_decide as Hint.
  - unfold response_of. cbn. intros [= <- <-].
    eexists _, _. split; [done|]. cbn. rewrite Hp.
    split; [done|]. destruct (Hdel (mkSubmission "" (delete "newPassword"
       (delete "currentPassword" (fd_payload (formData request)))) ∅ None)
       eq_refl) as [H1 H2]. cbn in H1, H2.
    split_and!; try done.
    intros _ v Hv'. destruct (value s); cbn in Hv'; [|done].
    by injection Hv' as <-.
  - destruct (value s) as [data|] eqn:Hval.
    + cbn zeta. repeat case_match; unfold response_of; cbn; done.
    + unfold response_of. cbn. intros [= <- <-].
      eexists _, _. split; [done|]. cbn. rewrite Hp.
      split; [done|]. destruct (Hdel (mkSubmission "" (delete "newPassword"
       (delete "currentPassword" (fd_payload (formData request)))) ∅ None)
       eq_refl) as [H1 H2]. cbn in H1, H2.
      by split_and!.
Qed.

(** *** The password hash *)

Lemma added_nil userId v db :
  added userId v db = [] →
  taken userId (ByUsername (v_username v)) db = false
  ∧ taken userId (ByEmail (v_email v)) db = false
  ∧ (truthy (v_newPassword v) = true →
     truthy (v_currentPassword v) = true
     ∧ verified userId (default "" (v_currentPassword v)) db = true).
Proof.
  unfold added, changes_password.
  destruct (taken userId (ByUsername _) db); [done|].
  destruct (taken userId (ByEmail _) db); [done|].
  destruct (truthy (v_newPassword v)), (truthy (v_currentPassword v));
    cbn; try done.
  destruct (verified _ _ _); cbn; done.
Qed.

Lemma before_no_update userId p id d :
  EvUpdate id d ∉ [EvRequireUserId; EvFormData] ++ refine_trace userId p.
Proof.
  unfold refine_trace, lookups.
  destruct (value_of _) as [v|]; [destruct (changes_password v)|]; cbn;
    intros Hin;
    repeat (apply elem_of_cons in Hin as [Hin|Hin]; [discriminate|]);
    by apply elem_of_nil in Hin.
Qed.

Lemma before_no_hashing userId p password :
  EvGetPasswordHash password ∉ [EvRequireUserId; EvFormData] ++ refine_trace userId p.
Proof.
  unfold refine_trace, lookups.
  destruct (value_of _) as [v|]; [destruct (changes_password v)|]; cbn;
    intros Hin;
    repeat (apply elem_of_cons in Hin as [Hin|Hin]; [discriminate|]);
    by apply elem_of_nil in Hin.
Qed.

Lemma read_no_update userId fd id d :
  EvUpdate id d ∉ [EvRequireUserId; EvFormData] ++ read_trace userId fd.
Proof.
  unfold read_trace. destruct (read_error fd); [|apply before_no_update].
  cbn. intros Hin.
  repeat (apply elem_of_cons in Hin as [Hin|Hin]; [discriminate|]).
  by apply elem_of_nil in Hin.
Qed.

Lemma read_no_hashing userId fd password :
  EvGetPasswordHash password
  ∉ [EvRequireUserId; EvFormData] ++ read_trace userId fd.
Proof.
  unfold read_trace. destruct (read_error fd); [|apply before_no_hashing].
  cbn. intros Hin.
  repeat (apply elem_of_cons in Hin as [Hin|Hin]; [discriminate|]).
  by apply elem_of_nil in Hin.
Qed.

(** A valid ['submit'] submission reaches the update. *)
Lemma action_valid_submit request db userId data :
  session request = Some userId →
  fd_intent (formData request) = "submit" →
  refined userId (fd_payload (formData request)) db = OK data →
  let d := update_data data in
  let tr := [EvRequireUserId; EvFormData]
            ++ refine_trace userId (fd_payload (formData request))
            ++ hashing data ++ [EvUpdate userId d] in
  action request db =
  match findUnique (ById userId) db with
  | None => mkRun (Threw (ThrownError "Record to update not found.")) db tr
  | Some u =>
      if existsb (conflicts userId d) db
      then mkRun (Threw (ThrownError "Unique constraint failed")) db tr
      else mkRun (Returned (Redirect ("/users/" +:+ data_username d) 302))
             (update_row userId d db) tr
  end.
Proof.
  intros Hs Hint Hr. rewrite (action_run _ _ _ Hs). cbn zeta.
  rewrite (read_trace_submit _ _ Hint). unfold submitted.
  rewrite (read_error_submit _ Hint), Hr. cbn. rewrite Hint. cbn.
  destruct (findUnique (ById userId) db); [destruct (existsb _ db)|]; done.
Qed.

(** Any other submission stops after the lookups, the table untouched. *)
Lemma action_no_update request db userId :
  session request = Some userId →
  fd_intent (formData request) ≠ "submit"
  ∨ is_valid (refined userId (fd_payload (formData request)) db) = false →
  trace (action request db)
  = [EvRequireUserId; EvFormData] ++ read_trace userId (formData request)
  ∧ final_db (action request db) = db.
Proof.
  intros Hs Hcase. rewrite (action_run _ _ _ Hs). cbn zeta.
  destruct (submitted _ _) as [s|t] eqn:Hsub; [|done].
  apply submitted_inv in Hsub as (Hi & Hp & Hv).
  case_bool_decide as Hint; [done|].
  destruct Hv as [->|(v & Hr & ->)]; [done|].
  rewrite Hr in Hcase. cbn in Hcase. rewrite <- Hi in Hcase.
  by destruct Hcase.
Qed.

(** C9. On a valid ['submit'] submission whose [newPassword] is absent or
    empty, the one update the action performs writes name, username and
    email only: no hash is computed, every row keeps its id, image and
    hash, and rows of other users are untouched. And whenever the action
    passes a hash to the update, the submission was a valid ['submit'] with
    a non-empty [newPassword] and a non-empty [currentPassword] that
    matches the stored hash, and the hash passed is the one computed from
    [newPassword]. *)
Theorem password_hash_frame (request : Request) (db : Db) (userId : UserId) :
  session request = Some userId →
  let p := fd_payload (formData request) in
  let r := action request db in
  (∀ v, fd_intent (formData request) = "submit" →
        outcome (validate userId p db) = Returned (OK v) →
        v_newPassword v = None ∨ v_newPassword v = Some "" →
        (∀ id d, EvUpdate id d ∈ trace r →
           id = userId
           ∧ d = mkData (v_name v) (v_username v) (v_email v) None)
        ∧ (∀ password, EvGetPasswordHash password ∉ trace r)
        ∧ Forall2 (row_frame true userId) db (final_db r))
  ∧ (∀ id d hash,
       EvUpdate id d ∈ trace r → data_password d = Some hash →
       ∃ v cur new u,
         fd_intent (formData request) = "submit"
         ∧ outcome (validate userId p db) = Returned (OK v)
         ∧ v_currentPassword v = Some cur ∧ cur ≠ ""
         ∧ v_newPassword v = Some new ∧ new ≠ ""
         ∧ findUnique (ById userId) db = Some u
         ∧ comparePassword cur (u_hash u) = true
         ∧ hash = hashPassword new).
Proof.
  intros Hs p r. subst r. split.
  - intros v Hint Hv Hnew. apply validate_OK in Hv.
    apply truthy_false in Hnew.
    assert (Hd : update_data v
                 = mkData (v_name v) (v_username v) (v_email v) None).
    { unfold update_data. by rewrite Hnew. }
    pose proof (action_valid_submit _ _ _ _ Hs Hint Hv) as Hrun.
    cbn zeta in Hrun. unfold hashing in Hrun. rewrite Hnew, Hd in Hrun.
    assert (Htr : trace (action request db)
                  = ([EvRequireUserId; EvFormData] ++ refine_trace userId p)
                    ++ [EvUpdate userId (mkData (v_name v) (v_username v)
                                           (v_email v) None)]).
    { rewrite Hrun.
      destruct (findUnique (ById userId) db); [destruct (existsb _ db)|];
        done. }
    split_and!.
    + intros id d. rewrite Htr.
      intros [Hin|Hin]%elem_of_app; [by apply before_no_update in Hin|].
      apply list_elem_of_singleton in Hin. by injection Hin as -> ->.
    + intros password. rewrite Htr.
      intros [Hin|Hin]%elem_of_app; [by apply before_no_hashing in Hin|].
      by apply list_elem_of_singleton in Hin.
    + rewrite Hrun.
      destruct (findUnique (ById userId) db); [destruct (existsb _ db)|];
        cbn; try apply row_frame_refl.
      exact (update_row_frame userId (mkData _ _ _ None) db).
  - intros id d hash Hin Hpw.
    destruct (decide (fd_intent (formData request) = "submit")) as [Hint|Hint].
    2:{ destruct (action_no_update request db userId Hs) as [Htr _]; [by left|].
        rewrite Htr in Hin. by apply read_no_update in Hin. }
    destruct (refined userId p db) as [data| |] eqn:Hr.
    2,3: destruct (action_no_update request db userId Hs) as [Htr _];
         [right; fold p; by rewrite Hr|];
         rewrite Htr in Hin; by apply read_no_update in Hin.
    pose proof (action_valid_submit _ _ _ _ Hs Hint Hr) as Hrun.
    cbn zeta in Hrun.
    assert (Htr : trace (action request db)
                  = ([EvRequireUserId; EvFormData] ++ refine_trace userId p)
                    ++ hashing data ++ [EvUpdate userId (update_data data)]).
    { rewrite Hrun.
      destruct (findUnique (ById userId) db); [destruct (existsb _ db)|];
        cbn; by rewrite <- ?app_assoc. }
    rewrite Htr in Hin.
    apply elem_of_app in Hin as [Hin|Hin]; [by apply before_no_update in Hin|].
    apply elem_of_app in Hin as [Hin|Hin].
    { unfold hashing in Hin. destruct (truthy _);
        [by apply list_elem_of_singleton in Hin | by apply elem_of_nil in Hin]. }
    apply list_elem_of_singleton in Hin. injection Hin as -> ->.
    unfold update_data in Hpw. cbn in Hpw.
    destruct (truthy (v_newPassword data)) eqn:Hnew; [|done].
    injection Hpw as <-.
    pose proof (refined_OK _ _ _ _ Hr) as [_ Hadd].
    apply added_nil in Hadd as (_ & _ & Hcur). destruct (Hcur Hnew) as [Hc Hver].
    apply truthy_true in Hnew as (new & Hn & Hne).
    apply truthy_true in Hc as (cur & Hc & Hce).
    rewrite Hc in Hver. cbn in Hver. unfold verified in Hver.
    destruct (findUnique (ById userId) db) as [u|] eqn:Hf; [|done].
    exists data, cur, new, u. rewrite Hn. cbn.
    split_and!; try done.
    rewrite validate_run. cbn. by rewrite Hr.
Qed.

(** *** The profile form schema *)

Lemma ProfileFormSchema_valid p :
  is_valid (ProfileFormSchema p)
  = is_valid (field_name nameSchema p)
    && is_valid (field_username usernameSchema p)
    && is_valid (field_currentPassword passwordSchema p)
    && is_valid (field_newPassword passwordSchema p)
    && is_valid (field_email emailSchema p).
Proof.
  unfold ProfileFormSchema.
  destruct (field_name nameSchema p), (field_username usernameSchema p),
    (field_currentPassword passwordSchema p),
    (field_newPassword passwordSchema p), (field_email emailSchema p);
    reflexivity.
Qed.

Lemma optional_valid {A} (schema : Schema A) x :
  is_valid (optional schema (Some x)) = is_valid (schema (Some x)).
Proof. cbn. by destruct (schema (Some x)). Qed.

Lemma union_valid {A} (a b : Schema A) input :
  is_valid (union a b input) = is_valid (a input) || is_valid (b input).
Proof. unfold union. by destruct (a input), (b input). Qed.

Lemma emptyString_valid x :
  is_valid (emptyString (Some x)) = true ↔ x = FText "".
Proof.
  destruct x as [s| | |]; cbn; [|by split..].
  destruct s as [|c s]; cbn; [done|]. split; [|done].
  repeat case_bool_decide; try done; cbn in *; lia.
Qed.

Lemma coerceString_idem input :
  coerceString (coerceFile (coerceString input)) = coerceFile (coerceString input).
Proof.
  destruct input as [[[|c s]|[|c f] [|n]|vs|fs]|]; reflexivity.
Qed.

Lemma coerce_not_empty input :
  coerceFile (coerceString input) ≠ Some (FText "").
Proof.
  destruct input as [[[|c s]|[|c f] [|n]|vs|fs]|]; done.
Qed.

(** An optional field is valid when it reads nothing, or when what it
    reads satisfies its schema. *)
Lemma optional_field_valid {A} (schema : Schema A) input :
  is_valid (coerced_optional (coerced schema) input) = true
  ↔ coerceFile (coerceString input) = None
    ∨ is_valid (schema (coerceFile (coerceString input))) = true.
Proof.
  unfold coerced_optional, coerced.
  pose proof (coerceString_idem input) as Hidem.
  destruct (coerceFile (coerceString input)) as [x|] eqn:Hy.
  - rewrite optional_valid, Hidem. split; [by right|]. by intros [?|?].
  - cbn. split; [by left|done].
Qed.

(** The empty string being read as nothing, the second option of the
    password unions never decides. *)
Lemma password_field_valid input :
  is_valid (coerced_optional (union (coerced passwordSchema) (coerced emptyString))
              input) = true
  ↔ coerceFile (coerceString input) = None
    ∨ is_valid (passwordSchema (coerceFile (coerceString input))) = true.
Proof.
  unfold coerced_optional, coerced.
  pose proof (coerceString_idem input) as Hidem.
  pose proof (coerce_not_empty input) as Hne.
  destruct (coerceFile (coerceString input)) as [x|] eqn:Hy.
  - rewrite optional_valid, union_valid, orb_true_iff, Hidem.
    rewrite emptyString_valid. split.
    + intros [H | ->]; [by right|done].
    + intros [?|H]; [done|by left].
  - cbn. split; [by left|done].
Qed.

(** The fields of a valid parse. *)
Lemma ProfileFormSchema_OK p v :
  ProfileFormSchema p = OK v →
  field_name nameSchema p = OK (v_name v)
  ∧ field_username usernameSchema p = OK (v_username v)
  ∧ field_currentPassword passwordSchema p = OK (v_currentPassword v)
  ∧ field_newPassword passwordSchema p = OK (v_newPassword v)
  ∧ field_email emailSchema p = OK (v_email v).
Proof.
  unfold ProfileFormSchema.
  destruct (field_name nameSchema p), (field_username usernameSchema p),
    (field_currentPassword passwordSchema p),
    (field_newPassword passwordSchema p), (field_email emailSchema p);
    cbn; try done.
  by intros [= <-].
Qed.

Lemma refined_valid userId p db :
  is_valid (ProfileFormSchema p) = false →
  is_valid (refined userId p db) = false.
Proof.
  unfold refined. destruct (ProfileFormSchema p); [done|done..].
Qed.

(** C7. In the profile form schema, as [parse] runs it, [name],
    [currentPassword] and [newPassword] are optional: a payload is valid
    exactly when its username and its email satisfy their schemas and
    each of the three other fields is either blank (left out, or the empty
    string) or satisfies its schema, the password schema for the two
    passwords; a blank optional field comes out as [undefined]. So, the
    username and email schemas refusing [undefined], a payload without
    username or without email never yields a parsed value, while a payload
    without name is valid as soon as its other fields are, and then passes
    the whole validation (here on an empty table, with no new password). *)
Theorem profile_schema_fields (p : gmap string FieldValue) :
  let optional_input key := coerceFile (coerceString (p !! key)) in
  let required_input key := coerceString (p !! key) in
  (is_valid (ProfileFormSchema p) = true
   ↔ (optional_input "name" = None
      ∨ is_valid (nameSchema (optional_input "name")) = true)
     ∧ is_valid (usernameSchema (required_input "username")) = true
     ∧ (optional_input "currentPassword" = None
        ∨ is_valid (passwordSchema (optional_input "currentPassword")) = true)
     ∧ (optional_input "newPassword" = None
        ∨ is_valid (passwordSchema (optional_input "newPassword")) = true)
     ∧ is_valid (emailSchema (required_input "email")) = true)
  ∧ (∀ key, p !! key = None ∨ p !! key = Some (FText "") →
            optional_input key = None ∧ required_input key = None)
  ∧ (∀ v, ProfileFormSchema p = OK v →
          (optional_input "name" = None → v_name v = None)
          ∧ (optional_input "currentPassword" = None →
             v_currentPassword v = None)
          ∧ (optional_input "newPassword" = None → v_newPassword v = None))
  ∧ (is_valid (usernameSchema None) = false →
     is_valid (emailSchema None) = false →
     required_input "username" = None ∨ required_input "email" = None →
     is_valid (ProfileFormSchema p) = false
     ∧ ∀ fd userId db s,
         fd_payload fd = p →
         outcome (parse fd (validate userId) db) = Returned s →
         value s = None)
  ∧ (optional_input "name" = None →
     is_valid (usernameSchema (required_input "username")) = true →
     optional_input "currentPassword" = None
     ∨ is_valid (passwordSchema (optional_input "currentPassword")) = true →
     optional_input "newPassword" = None
     ∨ is_valid (passwordSchema (optional_input "newPassword")) = true →
     is_valid (emailSchema (required_input "email")) = true →
     ∃ v, ProfileFormSchema p = OK v
          ∧ v_name v = None
          ∧ ∀ userId, v_newPassword v = None →
                      outcome (validate userId p []) = Returned (OK v)).
Proof.
  cbn zeta.
  assert (Hvalid : is_valid (ProfileFormSchema p) = true
   ↔ (coerceFile (coerceString (p !! "name")) = None
      ∨ is_valid (nameSchema (coerceFile (coerceString (p !! "name")))) = true)
     ∧ is_valid (usernameSchema (coerceString (p !! "username"))) = true
     ∧ (coerceFile (coerceString (p !! "currentPassword")) = None
        ∨ is_valid (passwordSchema
                      (coerceFile (coerceString (p !! "currentPassword"))))
          = true)
     ∧ (coerceFile (coerceString (p !! "newPassword")) = None
        ∨ is_valid (passwordSchema
                      (coerceFile (coerceString (p !! "newPassword")))) = true)
     ∧ is_valid (emailSchema (coerceString (p !! "email"))) = true).
  { rewrite ProfileFormSchema_valid, !andb_true_iff.
    unfold field_name, field_currentPassword, field_newPassword.
    rewrite optional_field_valid, !password_field_valid.
    unfold field_username, field_email, coerced. tauto. }
  split_and!.
  - exact Hvalid.
  - by intros key [-> | ->].
  - intros v (Hn & _ & Hc & Hw & _)%ProfileFormSchema_OK.
    unfold field_name, field_currentPassword, field_newPassword,
      coerced_optional in Hn, Hc, Hw.
    split_and!; intros Hb; [rewrite Hb in Hn|rewrite Hb in Hc|rewrite Hb in Hw];
      cbn in *; congruence.
  - intros Hu He Hmiss.
    assert (Hinv : is_valid (ProfileFormSchema p) = false).
    { destruct (is_valid (ProfileFormSchema p)) eqn:Hv; [|done].
      destruct (proj1 Hvalid eq_refl) as (_ & Hvu & _ & _ & Hve).
      destruct Hmiss as [Hm|Hm]; rewrite Hm in *; congruence. }
    split; [done|].
    intros fd userId db s Hp. rewrite parse_run. cbn. rewrite Hp.
    pose proof (refined_valid userId p db Hinv) as Hr.
    intros [_ [_ [Hv|(v & Hv & _)]]]%submitted_inv; [done|].
    by rewrite Hv in Hr.
  - intros Hname H1 H2 H3 H4.
    assert (Hv : is_valid (ProfileFormSchema p) = true)
      by (apply Hvalid; tauto).
    destruct (ProfileFormSchema p) as [v| |] eqn:Hpfs; [|done..].
    exists v. split; [done|].
    pose proof (ProfileFormSchema_OK p v Hpfs) as (Hn & _).
    unfold field_name, coerced_optional in Hn. rewrite Hname in Hn.
    cbn in Hn. split; [congruence|].
    intros userId Hnew. rewrite validate_run. cbn. unfold refined.
    rewrite Hpfs. unfold added, taken, changes_password. rewrite Hnew. cbn.
    by rewrite andb_false_r.
Qed.

(** *** Rejected submissions *)

(** Once the refinement has added an issue, the action answers with the
    errors and leaves the table alone. *)
Lemma action_rejected request db userId v :
  session request = Some userId →
  read_error (formData request) = None →
  value_of (ProfileFormSchema (fd_payload (formData request))) = Some v →
  added userId v db ≠ [] →
  ∃ issues,
    (∀ i, i ∈ added userId v db → i ∈ issues)
    ∧ let fd := formData request in
      let s := mkSubmission (fd_intent fd)
                 (delete "newPassword" (delete "currentPassword" (fd_payload fd)))
                 (formatError issues) None in
      action request db
      = mkRun (Returned (if bool_decide (fd_intent fd = "submit")
                         then Json 400 (ActionData "error" s)
                         else json (ActionData "idle" s)))
          db ([EvRequireUserId; EvFormData] ++ lookups userId v).
Proof.
  intros Hs Hread Hv Hne.
  assert (Hr : ∃ issues, (∀ i, i ∈ added userId v db → i ∈ issues)
     ∧ issues ≠ []
     ∧ refined userId (fd_payload (formData request)) db = DIRTY v issues).
  { unfold refined.
    destruct (ProfileFormSchema _) as [v'|v' issues|issues]; cbn in Hv;
      [| |done]; injection Hv as ->.
    - destruct (added userId v db) as [|j js] eqn:Ha; [done|]. by eexists.
    - eexists. split_and!; [|by intros [_ ?]%app_eq_nil|done].
      intros i Hi. apply elem_of_app. by right. }
  destruct Hr as (issues & Hin & Hnil & Hr). exists issues. split; [done|].
  cbn zeta. rewrite (action_run _ _ _ Hs). cbn zeta.
  unfold submitted, read_trace. rewrite Hread, Hr.
  unfold refine_trace. rewrite Hv.
  destruct issues as [|j js]; [done|]. cbn.
  repeat case_bool_decide; done.
Qed.

(** C3, as the code has it. On a ['submit'] submission of a user with a
    session, whose payload the profile schema does not abort on, when a
    row of another user already holds the parsed username or the parsed
    email (the table keeping its unique indexes), the error of that field
    reports that a user already exists with it, and the action answers
    with status 400 after the lookups, without updating. *)
Theorem taken_username_or_email_rejected
    (request : Request) (db : Db) (userId : UserId) (v : ProfileForm)
    (other : User) :
  session request = Some userId →
  fd_intent (formData request) = "submit" →
  value_of (ProfileFormSchema (fd_payload (formData request))) = Some v →
  db_unique db →
  other ∈ db → u_id other ≠ userId →
  u_username other = v_username v ∨ u_email other = v_email v →
  ∃ s,
    action request db
    = mkRun (Returned (Json 400 (ActionData "error" s))) db
        ([EvRequireUserId; EvFormData] ++ lookups userId v)
    ∧ value s = None
    ∧ (u_username other = v_username v →
       reports (error s) "username" "A user already exists with this username")
    ∧ (u_email other = v_email v →
       reports (error s) "email" "A user already exists with this email").
Proof.
  intros Hs Hint Hv Hdb Hin Hid Hdup.
  assert (Hu : u_username other = v_username v →
               mkIssue ["username"] "A user already exists with this username"
               ∈ added userId v db).
  { intros Heq. unfold added, taken. rewrite <- Heq.
    rewrite (findUnique_username db other Hdb Hin).
    rewrite bool_decide_eq_true_2 by done. apply elem_of_app. left.
    by apply list_elem_of_singleton. }
  assert (He : u_email other = v_email v →
               mkIssue ["email"] "A user already exists with this email"
               ∈ added userId v db).
  { intros Heq. unfold added, taken. rewrite <- Heq.
    rewrite (findUnique_email db other Hdb Hin).
    rewrite bool_decide_eq_true_2 by done.
    apply elem_of_app. right. apply elem_of_app. left.
    by apply list_elem_of_singleton. }
  assert (Hne : added userId v db ≠ []).
  { intros Hnil. rewrite Hnil in Hu, He.
    destruct Hdup as [H|H]; [apply Hu in H|apply He in H];
      by apply elem_of_nil in H. }
  destruct (action_rejected request db userId v Hs
              (read_error_submit _ Hint) Hv Hne)
    as (issues & Hall & Hrun).
  cbn zeta in Hrun. rewrite Hint in Hrun. cbn in Hrun.
  eexists. split; [exact Hrun|]. cbn. split_and!; [done|..].
  - intros H. by apply formatError_reports, Hall, Hu.
  - intros H. by apply formatError_reports, Hall, He.
Qed.

(** C4, as the code has it. On a submission of a user with a session,
    whose payload the profile schema does not abort on: a non-empty new
    password without a current password is reported on [newPassword], and
    a current password that fails verification is reported on
    [currentPassword]. Either way the submission has no parsed value, the
    action answers after the lookups with the errors (status 400 when the
    intent is ['submit'], idle for an intent other than a list intent) and
    the table is left alone. *)
Theorem password_pair_rejected
    (request : Request) (db : Db) (userId : UserId) (v : ProfileForm) :
  session request = Some userId →
  is_list_intent (fd_intent (formData request)) = false →
  value_of (ProfileFormSchema (fd_payload (formData request))) = Some v →
  lacks_current v ∨ wrong_current userId v db →
  ∃ s,
    action request db
    = mkRun (Returned (if bool_decide (fd_intent (formData request) = "submit")
                       then Json 400 (ActionData "error" s)
                       else json (ActionData "idle" s)))
        db ([EvRequireUserId; EvFormData] ++ lookups userId v)
    ∧ value s = None
    ∧ (lacks_current v →
       reports (error s) "newPassword"
         "Must provide current password to change password.")
    ∧ (wrong_current userId v db →
       reports (error s) "currentPassword" "Incorrect password.").
Proof.
  intros Hs Hlist Hv Hcase.
  assert (Hlack : lacks_current v →
    mkIssue ["newPassword"] "Must provide current password to change password."
    ∈ added userId v db).
  { intros [Hnew%truthy_true Hcur%truthy_false]. unfold added.
    rewrite Hnew, Hcur. cbn [andb negb].
    rewrite !elem_of_app, list_elem_of_singleton. auto. }
  assert (Hwrong : wrong_current userId v db →
    mkIssue ["currentPassword"] "Incorrect password." ∈ added userId v db).
  { intros (cur & new & Hc & Hce & Hn & Hne & Hver).
    assert (Hnew : truthy (v_newPassword v) = true) by (apply truthy_true; eauto).
    assert (Hcur : truthy (v_currentPassword v) = true)
      by (apply truthy_true; eauto).
    assert (Hv' : verified userId cur db = false).
    { unfold verified.
      destruct (findUnique (ById userId) db) as [u|]; [by apply Hver|done]. }
    unfold added, changes_password. rewrite Hnew, Hcur, Hc.
    change (default "" (Some cur)) with cur.
    rewrite Hv'. cbn [andb negb].
    rewrite !elem_of_app, list_elem_of_singleton. auto. }
  assert (Hne : added userId v db ≠ []).
  { intros Hnil. rewrite Hnil in Hlack, Hwrong.
    destruct Hcase as [H|H]; [apply Hlack in H|apply Hwrong in H];
      by apply elem_of_nil in H. }
  destruct (action_rejected request db userId v Hs
              (read_error_not_list _ Hlist) Hv Hne)
    as (issues & Hall & Hrun).
  cbn zeta in Hrun.
  eexists. split; [exact Hrun|]. cbn. split_and!; [done|..].
  - intros H. by apply formatError_reports, Hall, Hlack.
  - intros H. by apply formatError_reports, Hall, Hwrong.
Qed.

(** *** Accepted submissions *)

Lemma no_conflicts userId v db :
  db_unique db → added userId v db = [] →
  existsb (conflicts userId (update_data v)) db = false.
Proof.
  intros Hdb (Hu & He & _)%added_nil.
  destruct (existsb _ db) eqn:Hex; [|done].
  apply existsb_exists in Hex as (x & Hin%list_elem_of_In & Hc).
  unfold conflicts in Hc. cbn in Hc.
  apply andb_true_iff in Hc as [Hid Hc].
  apply negb_true_iff, bool_decide_eq_false in Hid.
  apply orb_true_iff in Hc as [Hc|Hc]; apply bool_decide_eq_true in Hc.
  - unfold taken in Hu. rewrite <- Hc in Hu.
    rewrite (findUnique_username db x Hdb Hin) in Hu.
    by rewrite bool_decide_eq_true_2 in Hu.
  - unfold taken in He. rewrite <- Hc in He.
    rewrite (findUnique_email db x Hdb Hin) in He.
    by rewrite bool_decide_eq_true_2 in He.
Qed.

Lemma findUnique_update_row userId d db :
  findUnique (ById userId) (update_row userId d db)
  = apply_update d <$> findUnique (ById userId) db.
Proof.
  unfold findUnique, update_row.
  induction db as [|x db IH]; [done|]. cbn.
  destruct (bool_decide (u_id x = userId)) eqn:Hx; cbn.
  - by rewrite Hx.
  - by rewrite Hx.
Qed.


(** C2, as the code has it. On a ['submit'] submission that passes
    validation, from a user with a session whose id has a row in the
    table (the table keeping its unique indexes), the action writes the
    parsed username and email, and the parsed name when there is one, to
    that row, and returns a redirect with status 302 to
    [/users/<username>], the username being the one just written. *)
Theorem valid_submit_updates_and_redirects
    (request : Request) (db : Db) (userId : UserId) (v : ProfileForm)
    (u : User) :
  session request = Some userId →
  fd_intent (formData request) = "submit" →
  outcome (validate userId (fd_payload (formData request)) db)
  = Returned (OK v) →
  db_unique db →
  findUnique (ById userId) db = Some u →
  ∃ u',
    outcome (action request db)
    = Returned (Redirect ("/users/" +:+ u_username u') 302)
    ∧ findUnique (ById userId) (final_db (action request db)) = Some u'
    ∧ u_username u' = v_username v
    ∧ u_email u' = v_email v
    ∧ u_name u' = (if v_name v is Some n then Some n else u_name u)
    ∧ Forall2 (row_frame false userId) db (final_db (action request db)).
Proof.
  intros Hs Hint Hv Hdb Hu. apply validate_OK in Hv.
  pose proof (action_valid_submit _ _ _ _ Hs Hint Hv) as Hrun.
  cbn zeta in Hrun. rewrite Hu in Hrun.
  apply refined_OK in Hv as [_ Hadd].
  rewrite (no_conflicts userId v db Hdb Hadd) in Hrun.
  exists (apply_update (update_data v) u). rewrite Hrun.
  cbn [outcome final_db].
  rewrite findUnique_update_row, Hu. split_and!; try done.
  pose proof (update_row_frame userId (update_data v) db) as Hf.
  eapply Forall2_impl; [exact Hf|].
  intros x y (? & ? & _ & ?). by split_and!.
Qed.

(** *** The lookups of the action *)

Lemma filter_refine_trace userId p :
  List.filter is_lookup ([EvRequireUserId; EvFormData] ++ refine_trace userId p)
  = refine_trace userId p.
Proof.
  unfold refine_trace, lookups.
  destruct (value_of _) as [v|]; [destruct (changes_password v)|]; done.
Qed.

Lemma filter_hashing data d userId :
  List.filter is_lookup (hashing data ++ [EvUpdate userId d]) = [].
Proof. unfold hashing. by destruct (truthy _). Qed.

Lemma filter_read_trace userId fd :
  List.filter is_lookup ([EvRequireUserId; EvFormData] ++ read_trace userId fd)
  = read_trace userId fd.
Proof.
  unfold read_trace. destruct (read_error fd); [done|].
  apply filter_refine_trace.
Qed.

(** C1, as the code has it. On a POST from a user with a session, whose
    intent is no list intent, the action reads the form and validates its
    payload against the profile schema. Unless that schema aborts (then
    the table is not read), the reads of the table are the lookup by
    username, then the lookup by email, then the password verification,
    which takes place only when both [currentPassword] and [newPassword]
    are non-empty. What the action answers follows from the result of the
    validation. With issues: no update, and the submission with the
    errors made of these issues and no parsed value, under status 400 for
    a ['submit'] and as idle otherwise. Without issue and for an intent
    other than ['submit']: idle, no update. Without issue on a ['submit']:
    the update of the row of the session's user with the parsed name,
    username and email (and the hash of a non-empty new password), then
    the redirect with status 302 to the page of the parsed username,
    unless the update throws, for want of a row or on a unique index. *)
Theorem action_lookups_and_answer
    (request : Request) (db : Db) (userId : UserId)
    (result : ParseReturn ProfileForm) :
  session request = Some userId →
  is_list_intent (fd_intent (formData request)) = false →
  outcome (validate userId (fd_payload (formData request)) db)
  = Returned result →
  let fd := formData request in
  let r := action request db in
  let payload' :=
    delete "newPassword" (delete "currentPassword" (fd_payload fd)) in
  (∃ rest, trace r = [EvRequireUserId; EvFormData] ++ rest)
  ∧ List.filter is_lookup (trace r)
    = match value_of (ProfileFormSchema (fd_payload fd)) with
      | None => []
      | Some v =>
          [EvFindUnique (ByUsername (v_username v));
           EvFindUnique (ByEmail (v_email v))]
          ++ (if truthy (v_currentPassword v) && truthy (v_newPassword v)
              then [EvVerifyUserPassword userId
                      (default "" (v_currentPassword v))]
              else [])
      end
  ∧ match result with
    | OK v =>
        if bool_decide (fd_intent fd = "submit")
        then
          let d :=
            mkData (v_name v) (v_username v) (v_email v)
              (if truthy (v_newPassword v)
               then Some (hashPassword (default "" (v_newPassword v)))
               else None) in
          last (trace r) = Some (EvUpdate userId d)
          ∧ match findUnique (ById userId) db with
            | None =>
                outcome r = Threw (ThrownError "Record to update not found.")
                ∧ final_db r = db
            | Some u =>
                if existsb (conflicts userId d) db
                then outcome r = Threw (ThrownError "Unique constraint failed")
                     ∧ final_db r = db
                else outcome r
                     = Returned (Redirect ("/users/" +:+ v_username v) 302)
                     ∧ final_db r = update_row userId d db
            end
        else
          outcome r
          = Returned (Json 200 (ActionData "idle"
               (mkSubmission (fd_intent fd) payload' ∅
                  (Some (mkForm (v_name v) (v_username v) None None
                           (v_email v))))))
          ∧ final_db r = db
          ∧ ∀ id d, EvUpdate id d ∉ trace r
    | DIRTY _ issues | INVALID issues =>
        final_db r = db
        ∧ (∀ id d, EvUpdate id d ∉ trace r)
        ∧ match issues with
          | [] =>
              outcome r
              = Threw (ThrownError "Validation failed but no issues detected.")
          | _ =>
              let s := mkSubmission (fd_intent fd) payload'
                         (formatError issues) None in
              outcome r
              = Returned (if bool_decide (fd_intent fd = "submit")
                          then Json 400 (ActionData "error" s)
                          else Json 200 (ActionData "idle" s))
          end
    end.
Proof.
  intros Hs Hlist Hv fd r payload'. subst r payload'.
  rewrite validate_run in Hv. cbn in Hv. injection Hv as <-. fold fd.
  pose proof (read_error_not_list _ Hlist) as Hread. fold fd in Hread.
  assert (Hrt : read_trace userId fd = refine_trace userId (fd_payload fd))
    by (unfold read_trace; by rewrite Hread).
  assert (Hlk : refine_trace userId (fd_payload fd)
    = match value_of (ProfileFormSchema (fd_payload fd)) with
      | None => []
      | Some v =>
          [EvFindUnique (ByUsername (v_username v));
           EvFindUnique (ByEmail (v_email v))]
          ++ (if truthy (v_currentPassword v) && truthy (v_newPassword v)
              then [EvVerifyUserPassword userId
                      (default "" (v_currentPassword v))]
              else [])
      end) by reflexivity.
  assert (Hother : fd_intent fd ≠ "submit"
            ∨ is_valid (refined userId (fd_payload fd) db) = false →
      (∃ rest, trace (action request db) = [EvRequireUserId; EvFormData] ++ rest)
      ∧ List.filter is_lookup (trace (action request db))
        = refine_trace userId (fd_payload fd)
      ∧ final_db (action request db) = db
      ∧ ∀ id d, EvUpdate id d ∉ trace (action request db)).
  { intros Hcase.
    destruct (action_no_update request db userId Hs Hcase) as [Htr Hdb].
    fold fd in Htr. split_and!.
    - rewrite Htr. by eexists.
    - by rewrite Htr, filter_read_trace.
    - done.
    - intros id d. rewrite Htr. apply read_no_update. }
  pose proof (action_run request db userId Hs) as Hrun. cbn zeta in Hrun.
  fold fd in Hrun. unfold submitted in Hrun. rewrite Hread in Hrun.
  destruct (refined userId (fd_payload fd) db) as [v|v issues|issues] eqn:Hr.
  - (* no issue *)
    cbn [intent value] in Hrun.
    destruct (decide (fd_intent fd = "submit")) as [Hint|Hint].
    + rewrite bool_decide_eq_true_2 by done.
      pose proof (action_valid_submit _ _ _ _ Hs Hint Hr) as Hsub.
      cbn zeta in Hsub. fold fd in Hsub.
      assert (Htr : trace (action request db)
                = ([EvRequireUserId; EvFormData]
                   ++ refine_trace userId (fd_payload fd))
                  ++ hashing v ++ [EvUpdate userId (update_data v)]).
      { rewrite Hsub.
        destruct (findUnique (ById userId) db); [destruct (existsb _ db)|];
          cbn; by rewrite <- ?app_assoc. }
      split_and!.
      * rewrite Htr. eexists. rewrite <- app_assoc. reflexivity.
      * by rewrite Htr, List.filter_app, filter_refine_trace, filter_hashing,
          app_nil_r.
      * cbn zeta. split.
        { rewrite Htr, !app_assoc. apply last_snoc. }
        rewrite Hsub. fold (update_data v).
        destruct (findUnique (ById userId) db); [destruct (existsb _ db)|];
          done.
    + rewrite bool_decide_eq_false_2 by done.
      destruct (Hother (or_introl Hint)) as (H1 & H2 & H3 & H4).
      split_and!; try done.
      rewrite Hrun. by rewrite bool_decide_eq_true_2 by done.
  - destruct (Hother (or_intror eq_refl)) as (H1 & H2 & H3 & H4).
    split_and!; try done.
    rewrite Hrun. destruct issues as [|i issues]; [done|].
    cbn [intent value delete_payload delete_value_passwords payload error fmap
         option_fmap option_map].
    destruct (decide (fd_intent fd = "submit")) as [Hint|Hint].
    + rewrite bool_decide_eq_false_2 by auto.
      by rewrite bool_decide_eq_true_2 by done.
    + rewrite bool_decide_eq_true_2 by done.
      by rewrite bool_decide_eq_false_2 by done.
  - destruct (Hother (or_intror eq_refl)) as (H1 & H2 & H3 & H4).
    split_and!; try done.
    rewrite Hrun. destruct issues as [|i issues]; [done|].
    cbn [intent value delete_payload delete_value_passwords payload error fmap
         option_fmap option_map].
    destruct (decide (fd_intent fd = "submit")) as [Hint|Hint].
    + rewrite bool_decide_eq_false_2 by auto.
      by rewrite bool_decide_eq_true_2 by done.
    + rewrite bool_decide_eq_true_2 by done.
      by rewrite bool_decide_eq_false_2 by done.
Qed.
(** ** Further properties of the handlers *)

(** *** What the action may write *)

(** The table after the action: as it was, or with the row of the session's
    user written, which goes with the redirect. *)
Lemma action_final_db request db :
  final_db (action request db) = db
  ∨ ∃ userId data,
      session request = Some userId
      ∧ fd_intent (formData request) = "submit"
      ∧ refined userId (fd_payload (formData request)) db = OK data
      ∧ final_db (action request db) = update_row userId (update_data data) db
      ∧ outcome (action request db)
        = Returned (Redirect ("/users/" +:+ v_username data) 302).
Proof.
  destruct (session request) as [userId|] eqn:Hs.
  2:{ left. unfold action.
      erewrite run_bind_throw
        by (unfold requireUserId, emit; rewrite Hs; reflexivity).
      done. }
  destruct (decide (fd_intent (formData request) = "submit")) as [Hint|Hint].
  2:{ left. by apply (action_no_update request db userId Hs); left. }
  destruct (refined userId (fd_payload (formData request)) db)
    as [data| |] eqn:Hr.
  2,3: left; apply (action_no_update request db userId Hs); right;
       by rewrite Hr.
  rewrite (action_valid_submit _ _ _ _ Hs Hint Hr). cbn zeta.
  destruct (findUnique (ById userId) db); [destruct (existsb _ db)|];
    [by left| |by left].
  right. by exists userId, data.
Qed.

(** X1. The action writes the table only when it answers with the
    redirect: whenever it returns JSON or throws, the table is as it was. *)
Theorem action_writes_only_with_redirect (request : Request) (db : Db) :
  final_db (action request db) = db
  ∨ ∃ location,
      outcome (action request db) = Returned (Redirect location 302).
Proof.
  destruct (action_final_db request db)
    as [H|(userId & data & _ & _ & _ & _ & H)]; [by left|].
  right. by eexists.
Qed.

Lemma update_row_ids userId d db : u_id <$> update_row userId d db = u_id <$> db.
Proof.
  unfold update_row. rewrite <- list_fmap_compose.
  apply list_fmap_ext. intros i x _. cbn. by case_bool_decide.
Qed.

Lemma update_row_images userId d db :
  u_image <$> update_row userId d db = u_image <$> db.
Proof.
  unfold update_row. rewrite <- list_fmap_compose.
  apply list_fmap_ext. intros i x _. cbn. by case_bool_decide.
Qed.

Lemma update_row_others userId d db u :
  u ∈ db → u_id u ≠ userId → u ∈ update_row userId d db.
Proof.
  intros Hin Hne. unfold update_row. apply list_elem_of_fmap.
  exists u. split; [|done]. by rewrite bool_decide_eq_false_2.
Qed.

(** X2. The action neither creates nor deletes a row: the ids (and the
    images) of the table are the same after as before, in the same order,
    and the row of a user other than the session's is still there,
    unchanged. *)
Theorem action_keeps_rows (request : Request) (db : Db) :
  u_id <$> final_db (action request db) = u_id <$> db
  ∧ u_image <$> final_db (action request db) = u_image <$> db
  ∧ ∀ u, u ∈ db → session request ≠ Some (u_id u) →
         u ∈ final_db (action request db).
Proof.
  destruct (action_final_db request db)
    as [->|(userId & data & Hs & _ & _ & -> & _)]; [done|].
  split_and!.
  - apply update_row_ids.
  - apply update_row_images.
  - intros u Hin Hne. apply update_row_others; [done|]. congruence.
Qed.

(** X3. A submission whose intent is not ['submit'] (a validation of one
    field, say) is never written, whatever it carries: no hash is computed,
    no update is made, the table is as it was, and the answer, when the
    user has a session and neither the form library nor the schema library
    throws, is the idle one with status 200. *)
Theorem other_intent_never_writes (request : Request) (db : Db) :
  fd_intent (formData request) ≠ "submit" →
  final_db (action request db) = db
  ∧ (∀ id d, EvUpdate id d ∉ trace (action request db))
  ∧ (∀ password, EvGetPasswordHash password ∉ trace (action request db))
  ∧ ∀ userId, session request = Some userId →
      (∃ s, outcome (action request db)
            = Returned (Json 200 (ActionData "idle" s)))
      ∨ ∃ m, outcome (action request db) = Threw (ThrownError m).
Proof.
  intros Hint. destruct (session request) as [userId|] eqn:Hs.
  2:{ unfold action.
      erewrite run_bind_throw
        by (unfold requireUserId, emit; rewrite Hs; reflexivity).
      cbn. split_and!; try done.
      - intros id d Hin. apply list_elem_of_singleton in Hin. done.
      - intros pw Hin. apply list_elem_of_singleton in Hin. done. }
  destruct (action_no_update request db userId Hs) as [Htr Hdb]; [by left|].
  split_and!; [done|..].
  - intros id d. rewrite Htr. apply read_no_update.
  - intros pw. rewrite Htr. apply read_no_hashing.
  - intros ? [= <-]. rewrite (action_run _ _ _ Hs). cbn zeta.
    destruct (submitted _ _) as [s|t] eqn:Hsub.
    2:{ apply submitted_throw in Hsub as [m ->]. right. by exists m. }
    apply submitted_inv in Hsub as (Hi & _ & _).
    rewrite bool_decide_eq_true_2 by (by rewrite Hi).
    left. by eexists.
Qed.

(** *** The loaders *)

(** X4. The profile-edit loader only reads: the table is as it was, and
    its answer is one of three: the redirect of [requireUserId] when the
    request has no session, the logout with the redirect to ["/"] when the
    session's user has no row, and else a 200 whose user data are those of
    a row of the table with the id of the session. *)
Theorem loader_answers (request : Request) (db : Db) :
  final_db (loader request db) = db
  ∧ ((session request = None
      ∧ outcome (loader request db)
        = Threw (ThrownResponse (redirect failureRedirect)))
     ∨ (∃ userId,
          session request = Some userId
          ∧ findUnique (ById userId) db = None
          ∧ outcome (loader request db)
            = Threw (ThrownResponse (Redirect "/" 302)))
     ∨ (∃ u,
          session request = Some (u_id u) ∧ u ∈ db
          ∧ outcome (loader request db)
            = Returned (Json 200 (LoaderData
                 (mkLoaderUser (u_id u) (u_name u) (u_username u)
                    (u_email u) (u_image u)))))).
Proof.
  unfold loader. destruct (session request) as [userId|] eqn:Hs.
  2:{ erewrite run_bind_throw
        by (unfold requireUserId, emit; rewrite Hs; reflexivity).
      split; [done|]. by left. }
  erewrite run_bind by (unfold requireUserId, emit; rewrite Hs; reflexivity).
  erewrite run_bind by apply findUnique_run.
  destruct (findUnique (ById userId) db) as [u|] eqn:Hf.
  - split; [done|]. right. right. exists u.
    apply findUnique_Some in Hf as [Hin Hm]. cbn in Hm.
    apply bool_decide_eq_true in Hm. subst userId. by split_and!.
  - split; [done|]. right. left. by exists userId.
Qed.

(** X5. The new-note loader never touches the table nor the form: its
    only call is [requireUserId], and with a session it answers 200 with
    an empty object. *)
Theorem notes_new_loader_answers (request : Request) (db : Db) :
  final_db (notes_new_loader request db) = db
  ∧ trace (notes_new_loader request db) = [EvRequireUserId]
  ∧ (is_Some (session request) →
     outcome (notes_new_loader request db) = Returned (Json 200 EmptyBody)).
Proof.
  unfold notes_new_loader. destruct (session request) as [userId|] eqn:Hs.
  - erewrite run_bind
      by (unfold requireUserId, emit; rewrite Hs; reflexivity).
    done.
  - erewrite run_bind_throw
      by (unfold requireUserId, emit; rewrite Hs; reflexivity).
    split_and!; done.
Qed.

(** *** Accepted submissions, continued *)

Lemma findUnique_id db u :
  db_unique db → u ∈ db → findUnique (ById (u_id u)) db = Some u.
Proof. intros (H & _). by apply (find_by_unique_column u_id). Qed.

Lemma refined_accepts userId p db v :
  ProfileFormSchema p = OK v → added userId v db = [] →
  refined userId p db = OK v.
Proof. intros Hp Ha. unfold refined. by rewrite Hp, Ha. Qed.

Lemma added_without_new_password userId v db :
  taken userId (ByUsername (v_username v)) db = false →
  taken userId (ByEmail (v_email v)) db = false →
  v_newPassword v = None ∨ v_newPassword v = Some "" →
  added userId v db = [].
Proof.
  intros Hu He Hn%truthy_false. unfold added, changes_password.
  rewrite Hu, He, Hn. cbn. by rewrite andb_false_r.
Qed.

(** A value held by no other user is not taken. *)
Lemma taken_false_free userId w db :
  (∀ x, x ∈ db → u_id x ≠ userId → matches w x = false) →
  taken userId w db = false.
Proof.
  intros Hfree. unfold taken.
  destruct (findUnique w db) as [x|] eqn:Hf; [|done].
  apply findUnique_Some in Hf as [Hin Hm].
  case_bool_decide as Hid; [|done]. by rewrite (Hfree x Hin Hid) in Hm.
Qed.

(** With unique indexes, the values of one's own row are not taken. *)
Lemma taken_false_own userId w db u :
  db_unique db → findUnique (ById userId) db = Some u →
  matches w u = true →
  taken userId w db = false.
Proof.
  intros Hdb Hu Hm. apply findUnique_Some in Hu as [Hin Hid].
  cbn in Hid. apply bool_decide_eq_true in Hid.
  unfold taken. destruct w as [id|username|email]; cbn in Hm;
    apply bool_decide_eq_true in Hm; subst.
  - rewrite (findUnique_id db u Hdb Hin). by rewrite bool_decide_eq_false_2 by auto.
  - rewrite (findUnique_username db u Hdb Hin).
    by rewrite bool_decide_eq_false_2 by auto.
  - rewrite (findUnique_email db u Hdb Hin).
    by rewrite bool_decide_eq_false_2 by auto.
Qed.

(** A column the update does not change on the rows of [userId]. *)
Lemma update_row_same_column {K} (col : User → K) userId d db :
  (∀ x, x ∈ db → u_id x = userId → col (apply_update d x) = col x) →
  col <$> update_row userId d db = col <$> db.
Proof.
  intros Hsame. unfold update_row. rewrite <- list_fmap_compose.
  apply list_fmap_ext. intros i x Hx. cbn.
  case_bool_decide; [|done]. apply Hsame; [|done].
  by apply list_elem_of_lookup_2 in Hx.
Qed.

(** The run of the action on a valid ['submit'] of a user with a row, on a
    table with unique indexes. *)
Lemma action_accepts request db userId v u :
  session request = Some userId →
  fd_intent (formData request) = "submit" →
  refined userId (fd_payload (formData request)) db = OK v →
  db_unique db →
  findUnique (ById userId) db = Some u →
  action request db
  = mkRun (Returned (Redirect ("/users/" +:+ v_username v) 302))
      (update_row userId (update_data v) db)
      ([EvRequireUserId; EvFormData]
       ++ refine_trace userId (fd_payload (formData request))
       ++ hashing v ++ [EvUpdate userId (update_data v)]).
Proof.
  intros Hs Hint Hr Hdb Hu.
  rewrite (action_valid_submit _ _ _ _ Hs Hint Hr). cbn zeta. rewrite Hu.
  apply refined_OK in Hr as [_ Hadd].
  by rewrite (no_conflicts userId v db Hdb Hadd).
Qed.

(** Carrying the username and the email of one's own row, and no new
    password, the refinement adds nothing. *)
Lemma own_values_added userId v db u :
  db_unique db → findUnique (ById userId) db = Some u →
  v_username v = u_username u → v_email v = u_email u →
  v_newPassword v = None ∨ v_newPassword v = Some "" →
  added userId v db = [].
Proof.
  intros Hdb Hu Hname Hmail Hnew.
  apply added_without_new_password; [| |done];
    apply (taken_false_own _ _ _ u Hdb Hu); cbn;
    by rewrite bool_decide_eq_true_2.
Qed.

(** Writing back the username and the email of the row, and no hash,
    leaves these three columns of the table as they were. *)
Lemma own_values_columns userId d db u :
  db_unique db → findUnique (ById userId) db = Some u →
  data_username d = u_username u → data_email d = u_email u →
  data_password d = None →
  u_username <$> update_row userId d db = u_username <$> db
  ∧ u_email <$> update_row userId d db = u_email <$> db
  ∧ u_hash <$> update_row userId d db = u_hash <$> db.
Proof.
  intros Hdb Hu Hname Hmail Hpw.
  assert (Hown : ∀ x, x ∈ db → u_id x = userId → x = u).
  { intros x Hx Hid. pose proof (findUnique_id db x Hdb Hx) as Hf.
    rewrite Hid, Hu in Hf. by injection Hf. }
  split_and!; apply update_row_same_column;
    intros x Hx Hid; rewrite (Hown x Hx Hid); cbn; rewrite ?Hpw; done.
Qed.

(** X6. A user may keep the username and the email of their own row: a
    valid ['submit'] that carries them unchanged, with no new password, is
    not refused as taken. The action redirects to the user's page, and the
    usernames, emails and hashes of the table are as they were. *)
Theorem own_username_and_email_accepted
    (request : Request) (db : Db) (userId : UserId) (v : ProfileForm)
    (u : User) :
  session request = Some userId →
  fd_intent (formData request) = "submit" →
  ProfileFormSchema (fd_payload (formData request)) = OK v →
  db_unique db →
  findUnique (ById userId) db = Some u →
  v_username v = u_username u → v_email v = u_email u →
  v_newPassword v = None ∨ v_newPassword v = Some "" →
  outcome (action request db)
  = Returned (Redirect ("/users/" +:+ u_username u) 302)
  ∧ u_username <$> final_db (action request db) = u_username <$> db
  ∧ u_email <$> final_db (action request db) = u_email <$> db
  ∧ u_hash <$> final_db (action request db) = u_hash <$> db.
Proof.
  intros Hs Hint Hp Hdb Hu Hname Hmail Hnew.
  pose proof (own_values_added userId v db u Hdb Hu Hname Hmail Hnew) as Hadd.
  rewrite (action_accepts _ _ _ _ _ Hs Hint (refined_accepts _ _ _ _ Hp Hadd)
             Hdb Hu).
  cbn [outcome final_db]. rewrite Hname. split; [done|].
  apply (own_values_columns userId _ db u Hdb Hu); cbn; try done.
  apply truthy_false in Hnew. by rewrite Hnew.
Qed.

(** X7. After a valid ['submit'] the loader shows what was written: on the
    table the action leaves, the profile-edit loader answers, for the same
    session, with the parsed username and email, the parsed name (the
    former name when none was sent) and the image the row had. *)
Theorem loader_after_action
    (request : Request) (db : Db) (userId : UserId) (v : ProfileForm)
    (u : User) :
  session request = Some userId →
  fd_intent (formData request) = "submit" →
  outcome (validate userId (fd_payload (formData request)) db)
  = Returned (OK v) →
  db_unique db →
  findUnique (ById userId) db = Some u →
  outcome (loader request (final_db (action request db)))
  = Returned (Json 200 (LoaderData
       (mkLoaderUser userId
          (if v_name v is Some n then Some n else u_name u)
          (v_username v) (v_email v) (u_image u)))).
Proof.
  intros Hs Hint Hv%validate_OK Hdb Hu.
  rewrite (action_accepts _ _ _ _ _ Hs Hint Hv Hdb Hu). cbn [final_db].
  unfold loader.
  erewrite run_bind by (unfold requireUserId, emit; rewrite Hs; reflexivity).
  erewrite run_bind by apply findUnique_run.
  rewrite findUnique_update_row, Hu. cbn.
  apply findUnique_Some in Hu as [_ Hid]. cbn in Hid.
  apply bool_decide_eq_true in Hid. by rewrite Hid.
Qed.

(** X8. After a valid ['submit'] with a new password, the hash stored for
    the user is the one computed from the new password; so, the hashing
    being such that a password matches its own hash, [verifyUserPassword]
    accepts the new password on the table the action leaves. *)
Theorem new_password_stored
    (request : Request) (db : Db) (userId : UserId) (v : ProfileForm)
    (u : User) (new : string) :
  session request = Some userId →
  fd_intent (formData request) = "submit" →
  outcome (validate userId (fd_payload (formData request)) db)
  = Returned (OK v) →
  db_unique db →
  findUnique (ById userId) db = Some u →
  v_newPassword v = Some new → new ≠ "" →
  u_hash <$> findUnique (ById userId) (final_db (action request db))
  = Some (hashPassword new)
  ∧ (comparePassword new (hashPassword new) = true →
     outcome (verifyUserPassword comparePassword userId new
                (final_db (action request db)))
     = Returned (Some userId)).
Proof.
  intros Hs Hint Hv%validate_OK Hdb Hu Hnew Hne.
  rewrite (action_accepts _ _ _ _ _ Hs Hint Hv Hdb Hu). cbn [final_db].
  assert (Ht : truthy (Some new) = true) by (apply truthy_true; eauto).
  assert (Hf : findUnique (ById userId) (update_row userId (update_data v) db)
               = Some (apply_update (update_data v) u))
    by (by rewrite findUnique_update_row, Hu).
  assert (Hh : u_hash (apply_update (update_data v) u) = hashPassword new)
    by (cbn; by rewrite Hnew, Ht).
  split; [by rewrite Hf; cbn; rewrite <- Hh|].
  intros Hcmp. unfold verifyUserPassword, emit, getDb.
  unfold mbind, M_bind, bind, mret, M_ret, ret. cbn [outcome].
  rewrite Hf, Hh, Hcmp. cbn.
  apply findUnique_Some in Hu as [_ Hid]. cbn in Hid.
  apply bool_decide_eq_true in Hid. by rewrite Hid.
Qed.

(** X9. A current password sent without a new one is never looked at:
    whatever [currentPassword] holds, a payload the profile schema accepts,
    whose username and email no other user holds and whose [newPassword]
    is absent or empty, passes validation, and the action makes no
    password verification. *)
Theorem current_password_alone_ignored
    (request : Request) (db : Db) (userId : UserId) (v : ProfileForm) :
  session request = Some userId →
  ProfileFormSchema (fd_payload (formData request)) = OK v →
  v_newPassword v = None ∨ v_newPassword v = Some "" →
  (∀ x, x ∈ db → u_id x ≠ userId →
        u_username x ≠ v_username v ∧ u_email x ≠ v_email v) →
  outcome (validate userId (fd_payload (formData request)) db)
  = Returned (OK v)
  ∧ ∀ id password,
      EvVerifyUserPassword id password ∉ trace (action request db).
Proof.
  intros Hs Hp Hnew Hfree.
  assert (Hadd : added userId v db = []).
  { apply added_without_new_password; [| |done];
      apply taken_false_free; intros x Hx Hid; cbn;
      apply bool_decide_eq_false; by apply Hfree. }
  pose proof (refined_accepts _ _ _ _ Hp Hadd) as Hr.
  split; [rewrite validate_run; cbn; by rewrite Hr|].
  intros id password Hin%list_elem_of_In.
  assert (Hf : In (EvVerifyUserPassword id password)
                 (List.filter is_lookup (trace (action request db))))
    by (apply filter_In; by split).
  assert (Hfl : In (EvVerifyUserPassword id password)
                   (refine_trace userId (fd_payload (formData request)))).
  { destruct (decide (fd_intent (formData request) = "submit")) as [Hi|Hi].
    - revert Hf. rewrite (action_valid_submit _ _ _ _ Hs Hi Hr). cbn zeta.
      destruct (findUnique (ById userId) db); [destruct (existsb _ db)|];
        cbn [trace];
        by rewrite !app_assoc, <- (app_assoc _ (hashing v)), List.filter_app,
             filter_refine_trace, filter_hashing, app_nil_r.
    - revert Hf.
      destruct (action_no_update request db userId Hs) as [-> _]; [by left|].
      rewrite filter_read_trace. unfold read_trace.
      by destruct (read_error (formData request)). }
  clear Hf. rename Hfl into Hf.
  unfold refine_trace, lookups, changes_password in Hf.
  rewrite Hp in Hf. cbn in Hf. apply truthy_false in Hnew.
  rewrite Hnew, andb_false_r in Hf. cbn in Hf.
  destruct Hf as [?|[?|[]]]; discriminate.
Qed.

(** *** Errors of the field schemas *)

Lemma reports_insert (acc : gmap string (list string)) name msg field m :
  reports (<[name := default [] (acc !! name) ++ [msg]]> acc) field m
  ↔ reports acc field m ∨ (name = field ∧ msg = m).
Proof.
  unfold reports. destruct (decide (name = field)) as [->|Hne].
  - rewrite lookup_insert_eq. split.
    + intros (msgs & [= <-] & [Hin|Hin%list_elem_of_singleton]%elem_of_app).
      * left. destruct (acc !! field) as [old|]; [by exists old|].
        by apply elem_of_nil in Hin.
      * by right.
    + intros [(msgs & Hl & Hin)|[_ ->]]; eexists; (split; [done|]).
      * rewrite Hl. apply elem_of_app. by left.
      * apply elem_of_app. right. by apply list_elem_of_singleton.
  - rewrite lookup_insert_ne by done. split; [by left|].
    by intros [H|[? _]].
Qed.

Lemma formatError_fold issues : ∀ (acc : gmap string (list string)) field m,
  reports
    (foldl (λ (result : gmap string (list string)) e,
              let name := getName (path e) in
              <[name := default [] (result !! name) ++ [message e]]> result)
       acc issues) field m
  ↔ reports acc field m
    ∨ ∃ i, i ∈ issues ∧ getName (path i) = field ∧ message i = m.
Proof.
  induction issues as [|e issues IH]; intros acc field m; cbn.
  - split; [by left|]. intros [H|(i & Hin & _)]; [done|].
    by apply elem_of_nil in Hin.
  - rewrite IH, reports_insert. split.
    + intros [[H|[Hn Hm]]|(i & Hin & Hi)].
      * by left.
      * right. exists e. split; [by left|done].
      * right. exists i. split; [by right|done].
    + intros [H|(i & [->|Hin]%elem_of_cons & Hn & Hm)].
      * by left; left.
      * left. by right.
      * right. by exists i.
Qed.

(** What an [error] object reports is what the issues say, field by
    field. *)
Lemma formatError_spec issues field m :
  reports (formatError issues) field m
  ↔ ∃ i, i ∈ issues ∧ getName (path i) = field ∧ message i = m.
Proof.
  unfold formatError. rewrite formatError_fold. split; [|by right].
  intros [(msgs & Hl & _)|H]; [|done]. by rewrite lookup_empty in Hl.
Qed.

Lemma ProfileFormSchema_issues p :
  issues_of (ProfileFormSchema p)
  = if is_valid (ProfileFormSchema p) then []
    else field_issues nameSchema usernameSchema passwordSchema emailSchema p.
Proof.
  unfold ProfileFormSchema.
  destruct (value_of (field_name nameSchema p)),
    (value_of (field_username usernameSchema p)),
    (value_of (field_currentPassword passwordSchema p)),
    (value_of (field_newPassword passwordSchema p)),
    (value_of (field_email emailSchema p)); try done.
  by destruct (_ && _).
Qed.

Lemma field_issues_invalid p i :
  i ∈ field_issues nameSchema usernameSchema passwordSchema emailSchema p →
  is_valid (ProfileFormSchema p) = false.
Proof.
  intros Hin. rewrite ProfileFormSchema_valid. unfold field_issues in Hin.
  destruct (field_name nameSchema p), (field_username usernameSchema p),
    (field_currentPassword passwordSchema p),
    (field_newPassword passwordSchema p), (field_email emailSchema p);
    try done.
  cbn in Hin. by apply elem_of_nil in Hin.
Qed.

(** The issues of the refined schema are those of the profile schema,
    followed by those the refinement added, if it ran. *)
Lemma refined_issues userId p db :
  issues_of (refined userId p db)
  = issues_of (ProfileFormSchema p)
    ++ match value_of (ProfileFormSchema p) with
       | Some v => added userId v db
       | None => []
       end.
Proof.
  unfold refined. destruct (ProfileFormSchema p) as [v|v issues|issues]; cbn.
  - by destruct (added userId v db).
  - done.
  - by rewrite app_nil_r.
Qed.

Lemma submitted_error fd r s :
  submitted fd r = Returned s → value s = None →
  error s = formatError (issues_of r).
Proof.
  unfold submitted. destruct (read_error fd); [done|].
  destruct r as [v|v [|i issues]|[|i issues]]; cbn; intros [= <-]; cbn; done.
Qed.

(** X10. The errors of the field schemas reach the user: when the intent
    is no list intent and a field schema raises an issue on its input (the
    entry of the payload, an empty text being read as an absent one), the
    action (for a user with a session) answers with JSON, 400 for a
    ['submit'] and 200 otherwise, whose submission has no parsed value and
    reports the message of the issue under the name of its field; the
    table is as it was. *)
Theorem field_issue_reported
    (request : Request) (db : Db) (userId : UserId) (i : ZodIssue) :
  session request = Some userId →
  is_list_intent (fd_intent (formData request)) = false →
  i ∈ field_issues nameSchema usernameSchema passwordSchema emailSchema
        (fd_payload (formData request)) →
  ∃ s,
    outcome (action request db)
    = Returned (if bool_decide (fd_intent (formData request) = "submit")
                then Json 400 (ActionData "error" s)
                else Json 200 (ActionData "idle" s))
    ∧ final_db (action request db) = db
    ∧ value s = None
    ∧ reports (error s) (getName (path i)) (message i).
Proof.
  intros Hs Hlist%read_error_not_list Hin.
  set (p := fd_payload (formData request)) in *.
  pose proof (field_issues_invalid p i Hin) as Hinv.
  assert (Hri : i ∈ issues_of (refined userId p db)).
  { rewrite refined_issues, ProfileFormSchema_issues, Hinv.
    apply elem_of_app. by left. }
  pose proof (refined_valid userId p db Hinv) as Hrv.
  rewrite (action_run _ _ _ Hs). cbn zeta. fold p.
  destruct (submitted (formData request) (refined userId p db))
    as [s|t] eqn:Hsub.
  2:{ exfalso. unfold submitted in Hsub. rewrite Hlist in Hsub.
      destruct (refined userId p db) as [v|v [|j js]|[|j js]];
        try done; by apply elem_of_nil in Hri. }
  pose proof Hsub as (Hi & Hp & Hv)%submitted_inv.
  assert (Hnone : value s = None).
  { destruct Hv as [Hv|(v & Hr & _)]; [done|]. by rewrite Hr in Hrv. }
  pose proof (submitted_error _ _ _ Hsub Hnone) as Herr.
  assert (Hrep : reports (error s) (getName (path i)) (message i)).
  { rewrite Herr. apply formatError_spec. by exists i. }
  rewrite Hi, Hnone.
  destruct (decide (fd_intent (formData request) = "submit")) as [Hint|Hint].
  - rewrite bool_decide_eq_false_2 by auto.
    rewrite bool_decide_eq_true_2 by done.
    eexists. split; [reflexivity|]. cbn. by split_and!.
  - rewrite bool_decide_eq_true_2 by done.
    rewrite bool_decide_eq_false_2 by done.
    eexists. split; [reflexivity|]. cbn. rewrite Hnone. by split_and!.
Qed.

(** *** The form in the browser *)

Lemma onValidate_run fd db :
  onValidate nameSchema usernameSchema passwordSchema emailSchema fd db
  = mkRun (submitted fd (ProfileFormSchema (fd_payload fd))) db [].
Proof.
  unfold onValidate, parse, submitted.
  destruct (read_error fd); [reflexivity|].
  erewrite run_bind by reflexivity.
  destruct (ProfileFormSchema (fd_payload fd))
    as [v|v [|i issues]|[|i issues]]; reflexivity.
Qed.

(** X11. The validation of the form in the browser and the one of the
    action agree as far as they can: [onValidate] never reads the table; a
    submission the action's validation accepts is accepted by [onValidate]
    with the same parsed value; and every error [onValidate] reports, the
    action's validation reports too. *)
Theorem onValidate_agrees
    (fd : FormData) (userId : UserId) (db db' : Db) :
  let client :=
    onValidate nameSchema usernameSchema passwordSchema emailSchema fd db' in
  let server := parse fd (validate userId) db in
  final_db client = db' ∧ trace client = []
  ∧ (∀ s, outcome server = Returned s → is_Some (value s) →
          outcome client = Returned s)
  ∧ (∀ c s field m,
       outcome client = Returned c → outcome server = Returned s →
       reports (error c) field m → reports (error s) field m).
Proof.
  cbn zeta. rewrite onValidate_run, parse_run. cbn [outcome final_db trace].
  split_and!; [done|done|..].
  - intros s Hs [v Hv].
    apply submitted_inv in Hs as Hs'. destruct Hs' as (_ & _ & [Hn|(v' & Hr & _)]);
      [congruence|].
    pose proof (refined_OK _ _ _ _ Hr) as [Hp _]. rewrite Hp.
    rewrite Hr in Hs. exact Hs.
  - intros c s field m Hc Hs Hrep.
    destruct (submitted_inv _ _ _ Hc) as (_ & _ & [Hcn|(v & Hp & Hcv)]).
    2:{ rewrite Hp in Hc. unfold submitted in Hc.
        rewrite (submitted_read _ _ _ Hs) in Hc.
        injection Hc as <-. cbn in Hrep.
        destruct Hrep as (msgs & Hl & _). by rewrite lookup_empty in Hl. }
    rewrite (submitted_error _ _ _ Hc Hcn) in Hrep.
    apply formatError_spec in Hrep as (i & Hin & Hn & Hm).
    assert (Hinv : is_valid (ProfileFormSchema (fd_payload fd)) = false).
    { destruct (ProfileFormSchema (fd_payload fd)); [|done..].
      by apply elem_of_nil in Hin. }
    pose proof (refined_valid userId (fd_payload fd) db Hinv) as Hrv.
    destruct (submitted_inv _ _ _ Hs) as (_ & _ & [Hsn|(v & Hr & _)]);
      [|by rewrite Hr in Hrv].
    rewrite (submitted_error _ _ _ Hs Hsn).
    apply formatError_spec. exists i. split; [|done].
    rewrite refined_issues. apply elem_of_app. by left.
Qed.

(** The data of a 200 answer of the loader are those of the row of the
    session's user. *)
Lemma loader_returned request db code lu :
  outcome (loader request db) = Returned (Json code (LoaderData lu)) →
  ∃ u, session request = Some (u_id u)
       ∧ findUnique (ById (u_id u)) db = Some u
       ∧ lu = mkLoaderUser (u_id u) (u_name u) (u_username u) (u_email u)
                (u_image u).
Proof.
  unfold loader. destruct (session request) as [userId|] eqn:Hs.
  2:{ erewrite run_bind_throw
        by (unfold requireUserId, emit; rewrite Hs; reflexivity).
      done. }
  erewrite run_bind by (unfold requireUserId, emit; rewrite Hs; reflexivity).
  erewrite run_bind by apply findUnique_run.
  destruct (findUnique (ById userId) db) as [u|] eqn:Hf; [|done].
  cbn. intros [= _ <-]. exists u.
  pose proof (findUnique_Some _ _ _ Hf) as [_ Hid]. cbn in Hid.
  apply bool_decide_eq_true in Hid. by rewrite Hid.
Qed.

(** The payload of the form saved as the page shows it: the three
    pre-filled fields and the two empty passwords. *)
Lemma untouched_payload lu :
  let p : gmap string FieldValue := FText <$> untouched lu in
  p !! "name" = Some (FText (default "" (lu_name lu)))
  ∧ p !! "username" = Some (FText (lu_username lu))
  ∧ p !! "currentPassword" = Some (FText "")
  ∧ p !! "newPassword" = Some (FText "")
  ∧ p !! "email" = Some (FText (lu_email lu)).
Proof.
  cbn zeta. rewrite !lookup_fmap. unfold untouched, defaultValue.
  split_and!; by simplify_map_eq.
Qed.

Lemma coerceString_text s :
  s ≠ "" → coerceString (Some (FText s)) = Some (FText s).
Proof. by destruct s. Qed.

(** An update that changes no row it applies to leaves the table as it
    was. *)
Lemma update_row_same userId d db :
  (∀ x, x ∈ db → u_id x = userId → apply_update d x = x) →
  update_row userId d db = db.
Proof.
  intros Hsame. transitivity (id <$> db); [|apply list_fmap_id].
  unfold update_row. apply list_fmap_ext. intros i x Hx. cbn.
  case_bool_decide; [|done]. apply Hsame; [|done].
  by apply list_elem_of_lookup_2 in Hx.
Qed.

(** X12. Saving the form as the page shows it changes nothing but,
    possibly, the name. The payload of the ['submit'] holds what the five
    inputs hold then: the [defaultValue] built from the loader's answer
    for the same session ([''] for a user without a name), and two empty
    passwords. When the username and the email of the user are not empty
    and their schemas accept them as they are, and the name schema accepts
    the name of the user if there is one that is not empty, the action
    redirects to the user's page and the usernames, emails and hashes of
    the table are as they were, whoever else is in the table; for a user
    whose name is absent or empty, the whole table is as it was. *)
Theorem defaults_resubmitted
    (get post : Request) (db : Db) (lu : LoaderUser) :
  outcome (loader get db) = Returned (Json 200 (LoaderData lu)) →
  session post = session get →
  fd_intent (formData post) = "submit" →
  fd_payload (formData post) = FText <$> untouched lu →
  db_unique db →
  lu_username lu ≠ "" →
  lu_email lu ≠ "" →
  usernameSchema (Some (FText (lu_username lu))) = OK (lu_username lu) →
  emailSchema (Some (FText (lu_email lu))) = OK (lu_email lu) →
  (∀ n, lu_name lu = Some n → n ≠ "" →
        is_valid (nameSchema (Some (FText n))) = true) →
  outcome (action post db)
  = Returned (Redirect ("/users/" +:+ lu_username lu) 302)
  ∧ u_username <$> final_db (action post db) = u_username <$> db
  ∧ u_email <$> final_db (action post db) = u_email <$> db
  ∧ u_hash <$> final_db (action post db) = u_hash <$> db
  ∧ (lu_name lu = None ∨ lu_name lu = Some "" →
     final_db (action post db) = db).
Proof.
  intros (u & Hget & Hu & ->)%loader_returned Hs Hint Hpay Hdb Hune Heme
    Husr Heml Hnm.
  rewrite Hget in Hs. cbn in Hune, Heme, Husr, Heml, Hnm.
  assert (Hname : ∃ name,
            field_name nameSchema (fd_payload (formData post)) = OK name
            ∧ (u_name u = None ∨ u_name u = Some "" → name = None)).
  { rewrite Hpay. unfold field_name.
    destruct (untouched_payload
                (mkLoaderUser (u_id u) (u_name u) (u_username u) (u_email u)
                   (u_image u))) as (-> & _). cbn [lu_name].
    destruct (u_name u) as [[|c n]|] eqn:Hn; cbn [default];
      [by exists None|..|by exists None].
    specialize (Hnm _ eq_refl ltac:(done)).
    unfold coerced_optional, coerced, optional. cbn.
    destruct (nameSchema (Some (FText (String c n)))) as [n'| |]; [|done..].
    exists (Some n'). split; [done|]. by intros [?|?]. }
  destruct Hname as (name & Hname & Hnone).
  assert (Hp : ProfileFormSchema (fd_payload (formData post))
               = OK (mkForm name (u_username u) None None (u_email u))).
  { unfold ProfileFormSchema. rewrite Hname. rewrite Hpay.
    unfold field_username, field_currentPassword, field_newPassword,
      field_email.
    destruct (untouched_payload
                (mkLoaderUser (u_id u) (u_name u) (u_username u) (u_email u)
                   (u_image u))) as (_ & -> & -> & -> & ->).
    unfold coerced. cbn [lu_username lu_email].
    rewrite !coerceString_text by done.
    rewrite Husr, Heml. reflexivity. }
  set (v := mkForm name (u_username u) None None (u_email u)) in *.
  assert (Hnew : v_newPassword v = None ∨ v_newPassword v = Some "")
    by (by left).
  pose proof (own_values_added (u_id u) v db u Hdb Hu eq_refl eq_refl Hnew)
    as Hadd.
  rewrite (action_accepts _ _ _ _ _ Hs Hint (refined_accepts _ _ _ _ Hp Hadd)
             Hdb Hu).
  cbn [outcome final_db]. split; [done|].
  destruct (own_values_columns (u_id u) (update_data v) db u Hdb Hu)
    as (H1 & H2 & H3); [done..|].
  split_and!; [done..|].
  intros Hnameless. apply update_row_same. intros x Hx Hid.
  pose proof (findUnique_id db x Hdb Hx) as Hf. rewrite Hid, Hu in Hf.
  injection Hf as <-. unfold apply_update. cbn. rewrite (Hnone Hnameless).
  by destruct u.
Qed.

(** X13. The unique indexes never refuse the update of the action: on a
    table that keeps them, the uniqueness lookups of the validation have
    already turned away every username or email held by another user, so
    the action never fails on the unique constraint. *)
Theorem unique_constraint_never_fails (request : Request) (db : Db) :
  db_unique db →
  outcome (action request db) ≠ Threw (ThrownError "Unique constraint failed").
Proof.
  intros Hdb. destruct (session request) as [userId|] eqn:Hs.
  2:{ unfold action.
      erewrite run_bind_throw
        by (unfold requireUserId, emit; rewrite Hs; reflexivity).
      done. }
  rewrite (action_run _ _ _ Hs). cbn zeta.
  destruct (submitted _ _) as [s|t] eqn:Hsub.
  2:{ apply submitted_throw_message in Hsub as [_ Hne]. by intros [= ->]. }
  apply submitted_inv in Hsub as (_ & _ & Hv).
  case_bool_decide; [done|].
  destruct Hv as [->|(v & Hr & ->)]; [done|].
  destruct (findUnique (ById userId) db) as [u|]; [|done].
  apply refined_OK in Hr as [_ Hadd].
  by rewrite (no_conflicts userId v db Hdb Hadd).
Qed.

(** X15. The update fails for want of a row in one case only: a valid
    ['submit'] from a session whose user has no row in the table. *)
Theorem update_fails_without_row (request : Request) (db : Db) :
  outcome (action request db)
  = Threw (ThrownError "Record to update not found.")
  ↔ ∃ userId v,
      session request = Some userId
      ∧ fd_intent (formData request) = "submit"
      ∧ outcome (validate userId (fd_payload (formData request)) db)
        = Returned (OK v)
      ∧ findUnique (ById userId) db = None.
Proof.
  split.
  - destruct (session request) as [userId|] eqn:Hs.
    2:{ unfold action.
        erewrite run_bind_throw
          by (unfold requireUserId, emit; rewrite Hs; reflexivity).
        done. }
    rewrite (action_run _ _ _ Hs). cbn zeta.
    destruct (submitted _ _) as [s|t] eqn:Hsub.
    2:{ apply submitted_throw_message in Hsub as [Hne _]. by intros [= ->]. }
    apply submitted_inv in Hsub as (Hi & _ & Hv).
    case_bool_decide as Hint; [done|].
    destruct Hv as [->|(v & Hr & ->)]; [done|].
    destruct (findUnique (ById userId) db) as [u|] eqn:Hu.
    { by destruct (existsb _ db). }
    intros _. exists userId, v. rewrite <- Hi. split_and!; try done.
    rewrite validate_run. cbn. by rewrite Hr.
  - intros (userId & v & Hs & Hint & Hv%validate_OK & Hu).
    rewrite (action_valid_submit _ _ _ _ Hs Hint Hv). cbn zeta.
    by rewrite Hu.
Qed.

End Theory.

(** * The handlers on the sample table *)

Lemma sample_db_unique : db_unique Sample.db.
Proof.
  unfold db_unique. split_and!; apply (bool_decide_unpack _); vm_compute; exact I.
Defined.

Lemma handlers_require_session_witness :
  Sample.action Runs.anonymous Sample.db
  = mkRun (Threw (ThrownResponse (Redirect "/login" 302))) Sample.db
      [EvRequireUserId].
Proof.
  pose proof (handlers_require_session Sample.nameSchema Sample.usernameSchema
                Sample.passwordSchema Sample.emailSchema Sample.hashPassword
                Sample.comparePassword Sample.failureRedirect
                Runs.anonymous Sample.db) as H.
  exact (proj2 (Forall_inv (Forall_inv_tail H)) eq_refl).
Defined.

Lemma loader_unknown_user_witness :
  Sample.loader Runs.ghost Sample.db
  = mkRun (Threw (ThrownResponse (Redirect "/" 302))) Sample.db
      [EvRequireUserId; EvFindUnique (ById "u9"); EvLogout "/"].
Proof.
  apply (loader_unknown_user Sample.failureRedirect Runs.ghost Sample.db "u9").
  - reflexivity.
  - intros u Hin.
    repeat (apply elem_of_cons in Hin as [->|Hin]; [discriminate|]).
    by apply elem_of_nil in Hin.
Defined.

Lemma profile_schema_fields_witness :
  is_valid (Sample.ProfileFormSchema (fd_payload (formData Runs.steal_email_only)))
  = false
  ∧ ∃ v, Sample.ProfileFormSchema (fd_payload (formData Runs.rename)) = OK v
         ∧ v_name v = None.
Proof.
  split.
  - pose proof (profile_schema_fields Sample.nameSchema Sample.usernameSchema
                  Sample.passwordSchema Sample.emailSchema
                  Sample.hashPassword Sample.comparePassword
                  Sample.failureRedirect
                  (fd_payload (formData Runs.steal_email_only))) as H.
    cbn zeta in H. destruct H as (_ & _ & _ & H & _).
    apply H; [reflexivity|reflexivity|]. left. vm_compute. reflexivity.
  - pose proof (profile_schema_fields Sample.nameSchema Sample.usernameSchema
                  Sample.passwordSchema Sample.emailSchema
                  Sample.hashPassword Sample.comparePassword
                  Sample.failureRedirect
                  (fd_payload (formData Runs.rename))) as H.
    cbn zeta in H. destruct H as (_ & _ & _ & _ & H).
    destruct H as (v & Hv & Hn & _);
      [vm_compute; reflexivity|vm_compute; reflexivity
      |left; vm_compute; reflexivity|left; vm_compute; reflexivity
      |vm_compute; reflexivity|].
    exists v. split; [exact Hv|exact Hn].
Defined.

Lemma action_json_hides_passwords_witness :
  ∃ status s,
    Runs.body_of (Sample.action Runs.new_password_only Sample.db)
    = ActionData status s
    ∧ payload s !! "currentPassword" = None
    ∧ payload s !! "newPassword" = None
    ∧ value s = None.
Proof.
  destruct (action_json_hides_passwords Sample.nameSchema Sample.usernameSchema
              Sample.passwordSchema Sample.emailSchema Sample.hashPassword
              Sample.comparePassword Sample.failureRedirect
              Runs.new_password_only Sample.db 400
              (Runs.body_of (Sample.action Runs.new_password_only Sample.db)))
    as (status & s & Hb & _ & Hc & Hn & _ & _ & _ & Hv).
  { vm_compute. reflexivity. }
  exists status, s. split; [exact Hb|]. split; [exact Hc|]. split; [exact Hn|].
  apply Hv.
  assert (Hi : intent s = "submit"); [|exact Hi].
  revert Hb. vm_compute. intros [= _ <-]. reflexivity.
Defined.

Lemma password_hash_frame_witness :
  (∀ password,
     EvGetPasswordHash password ∉ trace (Sample.action Runs.rename Sample.db))
  ∧ Forall2 (row_frame true "u1") Sample.db
      (final_db (Sample.action Runs.rename Sample.db)).
Proof.
  destruct (proj1 (password_hash_frame Sample.nameSchema Sample.usernameSchema
                     Sample.passwordSchema Sample.emailSchema
                     Sample.hashPassword Sample.comparePassword
                     Sample.failureRedirect Runs.rename Sample.db "u1" eq_refl)
              Runs.renamed) as (_ & Hh & Hf).
  - reflexivity.
  - vm_compute. reflexivity.
  - left. reflexivity.
  - split; [exact Hh|exact Hf].
Defined.

Lemma taken_username_or_email_rejected_witness :
  ∃ s,
    outcome (Sample.action Runs.steal Sample.db)
    = Returned (Json 400 (ActionData "error" s))
    ∧ reports (error s) "username" "A user already exists with this username"
    ∧ reports (error s) "email" "A user already exists with this email".
Proof.
  destruct (taken_username_or_email_rejected Sample.nameSchema
              Sample.usernameSchema Sample.passwordSchema Sample.emailSchema
              Sample.hashPassword Sample.comparePassword Sample.failureRedirect
              Runs.steal Sample.db "u1"
              (mkForm None "hannah" None None "hannah@example.com")
              Sample.hannah)
    as (s & Hrun & _ & Hu & He).
  - reflexivity.
  - reflexivity.
  - vm_compute. reflexivity.
  - exact sample_db_unique.
  - apply list_elem_of_further, list_elem_of_here.
  - discriminate.
  - left. reflexivity.
  - exists s. split; [|split; [apply Hu|apply He]; reflexivity].
    apply (f_equal outcome) in Hrun. exact Hrun.
Defined.

Lemma password_pair_rejected_witness :
  ∃ s,
    outcome (Sample.action Runs.new_password_only Sample.db)
    = Returned (Json 400 (ActionData "error" s))
    ∧ final_db (Sample.action Runs.new_password_only Sample.db) = Sample.db
    ∧ reports (error s) "newPassword"
        "Must provide current password to change password.".
Proof.
  assert (Hlack : lacks_current
                    (mkForm None "kody" None (Some "abcdefg") "kody@example.com")).
  { split; [|left; reflexivity]. exists "abcdefg". split; [reflexivity|discriminate]. }
  destruct (password_pair_rejected Sample.nameSchema
              Sample.usernameSchema Sample.passwordSchema Sample.emailSchema
              Sample.hashPassword Sample.comparePassword Sample.failureRedirect
              Runs.new_password_only Sample.db "u1"
              (mkForm None "kody" None (Some "abcdefg") "kody@example.com"))
    as (s & Hrun & _ & Hl & _).
  - reflexivity.
  - reflexivity.
  - vm_compute. reflexivity.
  - left. exact Hlack.
  - exists s. split; [|split; [|exact (Hl Hlack)]].
    + apply (f_equal outcome) in Hrun. exact Hrun.
    + apply (f_equal final_db) in Hrun. exact Hrun.
Defined.

Lemma valid_submit_updates_and_redirects_witness :
  outcome (Sample.action Runs.rename Sample.db)
  = Returned (Redirect "/users/kody2" 302)
  ∧ u_username <$> findUnique (ById "u1")
                     (final_db (Sample.action Runs.rename Sample.db))
    = Some "kody2".
Proof.
  destruct (valid_submit_updates_and_redirects Sample.nameSchema
              Sample.usernameSchema Sample.passwordSchema Sample.emailSchema
              Sample.hashPassword Sample.comparePassword Sample.failureRedirect
              Runs.rename Sample.db "u1" Runs.renamed Sample.kody)
    as (u' & Ho & Hf & Hu & _).
  - reflexivity.
  - reflexivity.
  - vm_compute. reflexivity.
  - exact sample_db_unique.
  - reflexivity.
  - rewrite Ho, Hf. cbn. rewrite Hu. split; reflexivity.
Defined.

Lemma action_lookups_and_answer_witness :
  List.filter is_lookup (trace (Sample.action Runs.steal Sample.db))
  = [EvFindUnique (ByUsername "hannah");
     EvFindUnique (ByEmail "hannah@example.com")]
  ∧ ∃ errors,
      outcome (Sample.action Runs.steal Sample.db)
      = Returned (Json 400 (ActionData "error"
           (mkSubmission "submit" (fd_payload (formData Runs.steal)) errors
              None)))
      ∧ errors !! "username"
        = Some ["A user already exists with this username"]
      ∧ errors !! "email" = Some ["A user already exists with this email"].
Proof.
  pose proof (action_lookups_and_answer Sample.nameSchema
                Sample.usernameSchema Sample.passwordSchema
                Sample.emailSchema Sample.hashPassword
                Sample.comparePassword Sample.failureRedirect
                Runs.steal Sample.db "u1"
                (DIRTY (mkForm None "hannah" None None "hannah@example.com")
                   [mkIssue ["username"]
                      "A user already exists with this username";
                    mkIssue ["email"] "A user already exists with this email"])
                eq_refl eq_refl eq_refl) as H.
  cbn zeta in H. destruct H as (_ & Hlookups & _ & _ & Hanswer).
  split; [exact Hlookups|].
  eexists. split; [|split].
  - rewrite Hanswer. vm_compute. reflexivity.
  - vm_compute. reflexivity.
  - vm_compute. reflexivity.
Defined.

(** A POST that changes no password makes the two uniqueness lookups and
    no password verification. *)
Lemma action_lookups_counterexample :
  session Runs.rename = Some "u1"
  ∧ outcome (Sample.action Runs.rename Sample.db)
    = Returned (Redirect "/users/kody2" 302)
  ∧ List.filter is_lookup (trace (Sample.action Runs.rename Sample.db))
    = [EvFindUnique (ByUsername "kody2");
       EvFindUnique (ByEmail "kody@example.com")]
  ∧ ¬ ∃ id password,
        EvVerifyUserPassword id password
        ∈ trace (Sample.action Runs.rename Sample.db).
Proof.
  assert (Hf : List.filter is_lookup (trace (Sample.action Runs.rename Sample.db))
               = [EvFindUnique (ByUsername "kody2");
                  EvFindUnique (ByEmail "kody@example.com")])
    by (vm_compute; reflexivity).
  split_and!; [reflexivity|vm_compute; reflexivity|exact Hf|].
  intros (id & password & Hin%list_elem_of_In).
  assert (Hin' : In (EvVerifyUserPassword id password)
                   (List.filter is_lookup
                      (trace (Sample.action Runs.rename Sample.db))))
    by (apply filter_In; split; [exact Hin|reflexivity]).
  rewrite Hf in Hin'. destruct Hin' as [H|[H|[]]]; discriminate.
Qed.

(** A valid ['submit'] from a session whose user has no row: the update
    throws, there is no redirect and the table is as it was. *)
Lemma valid_submit_counterexample :
  session Runs.ghost = Some "u9"
  ∧ fd_intent (formData Runs.ghost) = "submit"
  ∧ outcome (superRefine Sample.ProfileFormSchema (Sample.refinement "u9")
               (fd_payload (formData Runs.ghost)) Sample.db)
    = Returned (OK (mkForm None "ghost" None None "ghost@example.com"))
  ∧ Sample.action Runs.ghost Sample.db
    = mkRun (Threw (ThrownError "Record to update not found.")) Sample.db
        [EvRequireUserId; EvFormData; EvFindUnique (ByUsername "ghost");
         EvFindUnique (ByEmail "ghost@example.com");
         EvUpdate "u9" (mkData None "ghost" "ghost@example.com" None)].
Proof. split_and!; vm_compute; reflexivity. Qed.

(** Hannah holds the submitted email, yet, the username being left out,
    the only error is the missing username: nothing is reported on the
    email, and the table is not even read. *)
Lemma taken_email_counterexample :
  Sample.hannah ∈ Sample.db
  ∧ u_id Sample.hannah ≠ "u1"
  ∧ fd_payload (formData Runs.steal_email_only) !! "email"
    = Some (FText (u_email Sample.hannah))
  ∧ ∃ s,
      Sample.action Runs.steal_email_only Sample.db
      = mkRun (Returned (Json 400 (ActionData "error" s))) Sample.db
          [EvRequireUserId; EvFormData]
      ∧ error s = {[ "username" := ["Required"] ]}
      ∧ error s !! "email" = None.
Proof.
  split_and!.
  - apply list_elem_of_further, list_elem_of_here.
  - discriminate.
  - vm_compute. reflexivity.
  - eexists. split; [vm_compute; reflexivity|].
    split; vm_compute; reflexivity.
Qed.

(** A new password without the current one, the username being left out:
    the only error is the missing username, nothing is reported on
    [newPassword]. *)
Lemma password_pair_counterexample :
  fd_payload (formData Runs.new_password_no_username) !! "newPassword"
  = Some (FText "abcdefg")
  ∧ fd_payload (formData Runs.new_password_no_username) !! "currentPassword"
    = None
  ∧ ∃ s,
      Sample.action Runs.new_password_no_username Sample.db
      = mkRun (Returned (Json 400 (ActionData "error" s))) Sample.db
          [EvRequireUserId; EvFormData]
      ∧ error s = {[ "username" := ["Required"] ]}
      ∧ error s !! "newPassword" = None.
Proof.
  split_and!; try (vm_compute; reflexivity).
  eexists. split; [vm_compute; reflexivity|].
  split; vm_compute; reflexivity.
Qed.

(** ** Further runs *)

(** An empty username is read as a missing one: the answer is the one to
    the username left out, and the table is not read. *)
Lemma empty_username_is_missing :
  ∃ s,
    Sample.action Runs.steal_email_empty_username Sample.db
    = mkRun (Returned (Json 400 (ActionData "error" s))) Sample.db
        [EvRequireUserId; EvFormData]
    ∧ error s = {[ "username" := ["Required"] ]}.
Proof.
  eexists. split; [vm_compute; reflexivity|]. vm_compute. reflexivity.
Qed.

(** A list intent that cannot be read makes [parse] throw before it
    validates anything. *)
Lemma broken_list_intent_throws :
  Sample.action Runs.broken_list Sample.db
  = mkRun (Threw (ThrownError "Failed parsing intent: list/oops")) Sample.db
      [EvRequireUserId; EvFormData].
Proof. vm_compute. reflexivity. Qed.

Lemma other_intent_never_writes_witness :
  final_db (Sample.action Runs.check_username Sample.db) = Sample.db
  ∧ ∃ s, outcome (Sample.action Runs.check_username Sample.db)
         = Returned (Json 200 (ActionData "idle" s)).
Proof.
  destruct (other_intent_never_writes Sample.nameSchema Sample.usernameSchema
              Sample.passwordSchema Sample.emailSchema Sample.hashPassword
              Sample.comparePassword Sample.failureRedirect
              Runs.check_username Sample.db) as (Hdb & _ & _ & Hout).
  - vm_compute. discriminate.
  - split; [exact Hdb|].
    destruct (Hout "u1" eq_refl) as [Hs|[m Hm]]; [exact Hs|].
    revert Hm. vm_compute. discriminate.
Defined.

Lemma own_username_and_email_accepted_witness :
  outcome (Sample.action Runs.keep Sample.db)
  = Returned (Redirect "/users/kody" 302)
  ∧ u_username <$> final_db (Sample.action Runs.keep Sample.db)
    = u_username <$> Sample.db
  ∧ u_email <$> final_db (Sample.action Runs.keep Sample.db)
    = u_email <$> Sample.db
  ∧ u_hash <$> final_db (Sample.action Runs.keep Sample.db)
    = u_hash <$> Sample.db.
Proof.
  apply (own_username_and_email_accepted Sample.nameSchema
           Sample.usernameSchema Sample.passwordSchema Sample.emailSchema
           Sample.hashPassword Sample.comparePassword Sample.failureRedirect
           Runs.keep Sample.db "u1" Runs.kept Sample.kody).
  - reflexivity.
  - reflexivity.
  - vm_compute. reflexivity.
  - exact sample_db_unique.
  - reflexivity.
  - reflexivity.
  - reflexivity.
  - left. reflexivity.
Defined.

Lemma loader_after_action_witness :
  outcome (Sample.loader Runs.rename
             (final_db (Sample.action Runs.rename Sample.db)))
  = Returned (Json 200 (LoaderData
       (mkLoaderUser "u1" (Some "Kody") "kody2" "kody@example.com" None))).
Proof.
  apply (loader_after_action Sample.nameSchema
           Sample.usernameSchema Sample.passwordSchema Sample.emailSchema
           Sample.hashPassword Sample.comparePassword Sample.failureRedirect
           Runs.rename Sample.db "u1" Runs.renamed Sample.kody).
  - reflexivity.
  - reflexivity.
  - vm_compute. reflexivity.
  - exact sample_db_unique.
  - reflexivity.
Defined.

Lemma new_password_stored_witness :
  u_hash <$> findUnique (ById "u1")
               (final_db (Sample.action Runs.change_password Sample.db))
  = Some "hash:abcdefg"
  ∧ outcome (verifyUserPassword Sample.comparePassword "u1" "abcdefg"
               (final_db (Sample.action Runs.change_password Sample.db)))
    = Returned (Some "u1").
Proof.
  destruct (new_password_stored Sample.nameSchema
              Sample.usernameSchema Sample.passwordSchema Sample.emailSchema
              Sample.hashPassword Sample.comparePassword Sample.failureRedirect
              Runs.change_password Sample.db "u1" Runs.password_changed
              Sample.kody "abcdefg") as [Hh Hv].
  - reflexivity.
  - reflexivity.
  - vm_compute. reflexivity.
  - exact sample_db_unique.
  - reflexivity.
  - reflexivity.
  - discriminate.
  - split; [exact Hh|]. apply Hv. vm_compute. reflexivity.
Defined.

Lemma current_password_alone_ignored_witness :
  outcome (superRefine Sample.ProfileFormSchema (Sample.refinement "u1")
             (fd_payload (formData Runs.current_only)) Sample.db)
  = Returned (OK Runs.with_current_only).
Proof.
  apply (current_password_alone_ignored Sample.nameSchema
           Sample.usernameSchema Sample.passwordSchema Sample.emailSchema
           Sample.hashPassword Sample.comparePassword Sample.failureRedirect
           Runs.current_only Sample.db "u1" Runs.with_current_only).
  - reflexivity.
  - vm_compute. reflexivity.
  - left. reflexivity.
  - intros x Hx Hid.
    apply elem_of_cons in Hx as [->|Hx]; [by destruct Hid|].
    apply elem_of_cons in Hx as [->|Hx]; [split; discriminate|].
    by apply elem_of_nil in Hx.
Defined.

Lemma field_issue_reported_witness :
  ∃ s,
    outcome (Sample.action Runs.short_username Sample.db)
    = Returned (Json 400 (ActionData "error" s))
    ∧ reports (error s) "username" "Username is too short".
Proof.
  destruct (field_issue_reported Sample.nameSchema
              Sample.usernameSchema Sample.passwordSchema Sample.emailSchema
              Sample.hashPassword Sample.comparePassword Sample.failureRedirect
              Runs.short_username Sample.db "u1"
              (mkIssue ["username"] "Username is too short"))
    as (s & Hout & _ & _ & Hrep).
  - reflexivity.
  - reflexivity.
  - assert (Hf : field_issues Sample.nameSchema Sample.usernameSchema
                   Sample.passwordSchema Sample.emailSchema
                   (fd_payload (formData Runs.short_username))
                 = [mkIssue ["username"] "Username is too short"])
      by (vm_compute; reflexivity).
    rewrite Hf. apply list_elem_of_here.
  - exists s. split; [exact Hout|exact Hrep].
Defined.

Lemma onValidate_agrees_witness :
  outcome (onValidate Sample.nameSchema Sample.usernameSchema
             Sample.passwordSchema Sample.emailSchema
             (formData Runs.rename) [])
  = Returned (mkSubmission "submit" (fd_payload (formData Runs.rename)) ∅
                (Some Runs.renamed)).
Proof.
  apply (onValidate_agrees Sample.nameSchema Sample.usernameSchema
           Sample.passwordSchema Sample.emailSchema Sample.comparePassword
           (formData Runs.rename) "u1" Sample.db []).
  - vm_compute. reflexivity.
  - eexists. reflexivity.
Defined.

Lemma defaults_resubmitted_witness :
  outcome (Sample.action Runs.prefilled Sample.db)
  = Returned (Redirect "/users/hannah" 302)
  ∧ final_db (Sample.action Runs.prefilled Sample.db) = Sample.db.
Proof.
  destruct (defaults_resubmitted Sample.nameSchema
              Sample.usernameSchema Sample.passwordSchema Sample.emailSchema
              Sample.hashPassword Sample.comparePassword Sample.failureRedirect
              Runs.page Runs.prefilled Sample.db Runs.hannah_data)
    as (Hout & _ & _ & _ & Hdb).
  - reflexivity.
  - reflexivity.
  - reflexivity.
  - vm_compute. reflexivity.
  - exact sample_db_unique.
  - discriminate.
  - discriminate.
  - reflexivity.
  - reflexivity.
  - discriminate.
  - split; [exact Hout|]. apply Hdb. left. reflexivity.
Defined.

Lemma unique_constraint_never_fails_witness :
  outcome (Sample.action Runs.steal Sample.db)
  ≠ Threw (ThrownError "Unique constraint failed").
Proof.
  exact (unique_constraint_never_fails Sample.nameSchema
           Sample.usernameSchema Sample.passwordSchema Sample.emailSchema
           Sample.hashPassword Sample.comparePassword Sample.failureRedirect
           Runs.steal Sample.db sample_db_unique).
Defined.

